(** * app.ts: a runtime model of the TypeScript masterclass seed file

    The file [src/app.ts] is a flat sequence of declarations and top-level
    statements.  TypeScript types are erased before the program runs, so the
    model below is the JavaScript the file compiles to: values are primitives
    or references into a store of objects and arrays, numbers are IEEE-754
    binary64 floats, strings are sequences of UTF-16 code units, and every
    function of the file is a computation over the store that either returns
    a value or throws. *)

From Stdlib Require Import ZArith QArith Qabs Qround String Ascii List DecimalString SpecFloat Lia.
From stdpp Require Import base option gmap list strings fin_maps.

Local Open Scope Z_scope.

(** ** Strings *)

(** A JavaScript string is a finite sequence of 16-bit code units. *)
Definition code_unit := N.
Definition jsstring := list code_unit.

(** Source literals are written as Rocq strings (all of them are ASCII). *)
Definition js (s : string) : jsstring :=
  map N_of_ascii (list_ascii_of_string s).

(** ** Numbers *)

Module Number.

(** The Number type: binary64, i.e. 53 bits of precision and [emax = 1024]. *)
Definition number := spec_float.
Definition prec : Z := 53.
Definition emax : Z := 1024.

#[global] Instance number_eq_dec : EqDecision spec_float.
Proof. solve_decision. Defined.

Definition NaN : number := S754_nan.
Definition Infinity : number := S754_infinity false.

(** The Number value of a mathematical integer (a numeric literal such as
    [60000]), rounded to nearest, ties to even. *)
Definition of_Z (z : Z) : number := binary_normalize prec emax z 0 false.

(** The Number value of [s * 10^p] for a positive integer [s], rounded to
    nearest, ties to even. *)
Definition of_decimal (s : positive) (p : Z) : number :=
  match p with
  | Zneg q =>
      let '(m, e, l) := SFdiv_core_binary prec emax (Zpos s) 0 (Zpos (10 ^ q)) 0 in
      binary_round_aux prec emax false m e l
  | _ => binary_round prec emax false (s * Z.to_pos (10 ^ p)) 0
  end.

(** [x / y] *)
Definition divide (x y : number) : number := SFdiv prec emax x y.

(** [Math.floor(x)]: the greatest integral Number not above [x]; zeros,
    infinities and NaN are returned as they are. *)
Definition floor (x : number) : number :=
  match x with
  | S754_finite s m e =>
      if 0 <=? e then x
      else
        let z := Z.shiftr (cond_Zopp s (Zpos m)) (- e) in
        binary_normalize prec emax z 0 false
  | _ => x
  end.

(** [n % d]: the remainder of the truncating division, with the sign of the
    dividend; it is computed exactly. *)
Definition remainder (n d : number) : number :=
  match n, d with
  | S754_nan, _ | _, S754_nan => NaN
  | S754_infinity _, _ => NaN
  | _, S754_infinity _ => n
  | _, S754_zero _ => NaN
  | S754_zero _, _ => n
  | S754_finite sn mn en, S754_finite _ md ed =>
      let e := Z.min en ed in
      let r := Z.rem (Z.shiftl (Zpos mn) (en - e)) (Z.shiftl (Zpos md) (ed - e)) in
      binary_normalize prec emax (cond_Zopp sn r) e sn
  end.

(** The exact rational value of a positive finite Number [m * 2^e]. *)
Definition exact (m : positive) (e : Z) : Q :=
  (inject_Z (Zpos m) * Qpower 2 e)%Q.

Definition pow10 (p : Z) : Q := Qpower 10 p.

(** The decimal exponent [n] with [10^(n-1) <= x < 10^n], found by stepping
    from an estimate taken from the binary exponent. *)
Fixpoint magnitude_from (fuel : nat) (x : Q) (n : Z) : Z :=
  match fuel with
  | O => n
  | S fuel' =>
      if Qle_bool (pow10 n) x then magnitude_from fuel' x (n + 1) else n
  end.

Definition magnitude (m : positive) (e : Z) : Z :=
  let d := Zpos (digits2_pos m) + e in
  magnitude_from 8 (exact m e) ((d - 1) * 30103 / 100000 - 2).

(** The candidates [(n, s)] with [k] digits for the Number [m * 2^e]:
    [10^(k-1) <= s < 10^k] and [s * 10^(n-k)] rounds to the Number. *)
Definition candidates (m : positive) (e : Z) (k : Z) : list (Z * Z) :=
  let x := exact m e in
  let n0 := magnitude m e in
  n ← [n0; n0 + 1];
  let t := Qfloor (x / pow10 (n - k))%Q in
  s ← [t; t + 1];
  if (10 ^ (k - 1) <=? s) && (s <? 10 ^ k)
     && bool_decide (of_decimal (Z.to_pos s) (n - k) = S754_finite false m e)
  then [(n, s)] else [].

Definition distance (x : Q) (k : Z) (c : Z * Z) : Q :=
  Qabs (inject_Z c.2 * pow10 (c.1 - k) - x)%Q.

(** Of several candidates the one closest to the Number is taken, and of two
    equally close ones the one with the even [s]. *)
Definition closer (x : Q) (k : Z) (c best : Z * Z) : bool :=
  match Qcompare (distance x k c) (distance x k best) with
  | Lt => true
  | Eq => Z.even c.2
  | Gt => false
  end.

Fixpoint closest (x : Q) (k : Z) (best : Z * Z) (cs : list (Z * Z)) : Z * Z :=
  match cs with
  | [] => best
  | c :: cs' => closest x k (if closer x k c best then c else best) cs'
  end.

(** The shortest digit string: the least [k] that has a candidate. *)
Fixpoint shortest (fuel : nat) (m : positive) (e : Z) (k : Z) : Z * Z * Z :=
  match candidates m e k with
  | c :: cs => let b := closest (exact m e) k c cs in (b.1, k, b.2)
  | [] =>
      match fuel with
      | O => (0, 1, 0)
      | S fuel' => shortest fuel' m e (k + 1)
      end
  end.

Definition digits (z : Z) : jsstring :=
  js (NilZero.string_of_uint (N.to_uint (Z.to_N z))).

Definition zeros (n : Z) : jsstring := replicate (Z.to_nat n) (N_of_ascii "0").

(** [Number::toString(x)] in radix 10. *)
Definition toString (x : number) : jsstring :=
  match x with
  | S754_nan => js "NaN"
  | S754_zero _ => js "0"
  | S754_infinity s => (if s then js "-" else []) ++ js "Infinity"
  | S754_finite sg m e =>
      let '(n, k, s) := shortest 20 m e 1 in
      let ds := digits s in
      let body :=
        if (k <=? n) && (n <=? 21) then ds ++ zeros (n - k)
        else if (0 <? n) && (n <=? 21) then
          take (Z.to_nat n) ds ++ js "." ++ drop (Z.to_nat n) ds
        else if (-6 <? n) && (n <=? 0) then js "0." ++ zeros (- n) ++ ds
        else
          let ex := (if 0 <=? n - 1 then js "+" else js "-") ++ digits (Z.abs (n - 1)) in
          if k =? 1 then ds ++ js "e" ++ ex
          else take 1 ds ++ js "." ++ drop 1 ds ++ js "e" ++ ex
      in
      (if sg then js "-" else []) ++ body
  end.

End Number.


(** ** Values and the store *)

Definition loc := positive.

Inductive value :=
  | VUndefined
  | VNull
  | VBoolean (b : bool)
  | VNumber (x : Number.number)
  | VString (s : jsstring)
  | VRef (l : loc).

#[global] Instance value_eq_dec : EqDecision value.
Proof. solve_decision. Defined.

(** The classes the file declares; [Object] is the class of object literals.
    No class of the file extends another. *)
Module Class.
Inductive t := Object | Song | Album | Playlist | BandCreator | Cake | List | Coupon | Gym.

#[global] Instance eq_dec : EqDecision t.
Proof. solve_decision. Defined.
End Class.

(** What a reference points to: an object with its own data properties, an
    array (a hole is [None]), or a function object. *)
Inductive body :=
  | Fields (c : Class.t) (props : gmap jsstring value)
  | Elements (xs : list (option value))
  | Code (name : jsstring).

(** [frozen] is set by [Object.freeze] and by nothing else: the file uses no
    other way to change property attributes or extensibility. *)
Record cell := Cell { body_of : body; frozen : bool }.

#[global] Instance body_eq_dec : EqDecision body.
Proof. solve_decision. Defined.
#[global] Instance cell_eq_dec : EqDecision cell.
Proof. solve_decision. Defined.

(** A module-level variable is declared with [const] or with [let]; an import
    binds like [const], and the variable that holds the object of an [enum] is
    a [var] of the compiled code. *)
Inductive decl := Const | Let | Var.

#[global] Instance decl_eq_dec : EqDecision decl.
Proof. solve_decision. Defined.

Record state := State {
  heap : gmap loc cell;
  bindings : gmap jsstring (decl * value);
  console : list (list value);
  library : list (jsstring * list value)
}.

Definition with_heap (h : gmap loc cell) (σ : state) : state :=
  State h (bindings σ) (console σ) (library σ).
Definition with_bindings (b : gmap jsstring (decl * value)) (σ : state) : state :=
  State (heap σ) b (console σ) (library σ).
Definition with_console (c : list (list value)) (σ : state) : state :=
  State (heap σ) (bindings σ) c (library σ).
Definition with_library (c : list (jsstring * list value)) (σ : state) : state :=
  State (heap σ) (bindings σ) (console σ) c.

#[global] Instance state_eq_dec : EqDecision state.
Proof. solve_decision. Defined.

Definition empty_state : state := State ∅ ∅ [] [].

(** ** Computations *)

(** A computation ends normally or throws.  The file is a module, hence
    strict-mode code.  [OutsideModel] marks an operation on a value that the
    parameter types of the file exclude and whose runtime behaviour is not
    modelled. *)
Inductive exn := TypeError | OutsideModel.

Inductive outcome (A : Type) :=
  | Normal (a : A)
  | Throws (e : exn).
Arguments Normal {A} a.
Arguments Throws {A} e.

#[global] Instance exn_eq_dec : EqDecision exn.
Proof. solve_decision. Defined.
#[global] Instance outcome_eq_dec {A} `{EqDecision A} : EqDecision (outcome A).
Proof. solve_decision. Defined.

Definition M (A : Type) : Type := state → outcome A * state.

#[global] Instance M_ret : MRet M := λ A a σ, (Normal a, σ).
#[global] Instance M_bind : MBind M := λ A B f m σ,
  match m σ with
  | (Normal a, σ') => f a σ'
  | (Throws e, σ') => (Throws e, σ')
  end.

Definition throw {A} (e : exn) : M A := λ σ, (Throws e, σ).

(** *** The store *)

Definition alloc (b : body) : M value := λ σ,
  let l := fresh (dom (heap σ)) in
  (Normal (VRef l), with_heap (<[l := Cell b false]> (heap σ)) σ).

Definition load (l : loc) : M cell := λ σ,
  match heap σ !! l with
  | Some c => (Normal c, σ)
  | None => (Throws OutsideModel, σ)
  end.

Definition store (l : loc) (c : cell) : M unit := λ σ,
  (Normal (), with_heap (<[l := c]> (heap σ)) σ).

(** *** Module-level variables *)

Definition declare (d : decl) (x : string) (v : value) : M unit := λ σ,
  (Normal (), with_bindings (<[js x := (d, v)]> (bindings σ)) σ).

Definition read (x : string) : M value := λ σ,
  match bindings σ !! js x with
  | Some (_, v) => (Normal v, σ)
  | None => (Throws OutsideModel, σ)
  end.

(** Assignment to a [const] throws; the compiler rejects it beforehand. *)
Definition assign (x : string) (v : value) : M unit := λ σ,
  match bindings σ !! js x with
  | Some (Let, _) => (Normal (), with_bindings (<[js x := (Let, v)]> (bindings σ)) σ)
  | Some (Var, _) => (Normal (), with_bindings (<[js x := (Var, v)]> (bindings σ)) σ)
  | Some (Const, _) => (Throws TypeError, σ)
  | None => (Throws OutsideModel, σ)
  end.

(** *** Effects that leave the module *)

Definition console_log (args : list value) : M unit := λ σ,
  (Normal (), with_console (console σ ++ [args]) σ).

(** A call of a function of the imported library [lodash] is recorded with
    its arguments. *)
Definition lodash (f : string) (args : list value) : M unit := λ σ,
  (Normal (), with_library (library σ ++ [(js f, args)]) σ).

(** *** Operators *)

(** The properties that an object finds on its prototype chain and not among
    its own: those of [Object.prototype], and the methods that the classes
    [List] and [Gym] declare.  They are functions (and the accessor
    [__proto__]) of the host and of the class, which the store does not
    hold. *)
Definition Object_prototype : list jsstring :=
  map js ["constructor"; "__defineGetter__"; "__defineSetter__"; "hasOwnProperty";
          "__lookupGetter__"; "__lookupSetter__"; "isPrototypeOf";
          "propertyIsEnumerable"; "toString"; "valueOf"; "__proto__";
          "toLocaleString"].

Definition among (key : jsstring) (keys : list jsstring) : bool :=
  existsb (λ k, bool_decide (key = k)) keys.

Definition inherited (c : Class.t) (key : jsstring) : bool :=
  among key Object_prototype
  || (among key [js "addItem"; js "getList"] && bool_decide (c = Class.List))
  || (among key [js "athlete"] && bool_decide (c = Class.Gym)).

(** [o.key] and [o[key]]: an own property is read; a key that is neither own
    nor inherited reads as [undefined]; an inherited one is outside the
    model. *)
Definition get (o : value) (key : jsstring) : M value :=
  match o with
  | VUndefined | VNull => throw TypeError
  | VRef l =>
      c ← load l;
      match body_of c with
      | Fields k props =>
          match props !! key with
          | Some v => mret v
          | None => if inherited k key then throw OutsideModel else mret VUndefined
          end
      | _ => throw OutsideModel
      end
  | _ => throw OutsideModel
  end.

(** An assignment to the key [__proto__] of an object that has no own
    property of that name reaches the setter of [Object.prototype]: it ignores
    a value that is neither an object nor [null], and otherwise changes the
    prototype, which is outside the model. *)
Definition reaches_proto_setter (b : body) (key : jsstring) : bool :=
  bool_decide (key = js "__proto__")
  && match b with
     | Fields _ props => bool_decide (props !! key = None)
     | _ => true
     end.

Definition proto_setter (v : value) : M unit :=
  match v with
  | VRef _ | VNull => throw OutsideModel
  | _ => mret ()
  end.

(** [o.key = v] and [o[key] = v]: a write to a frozen object throws in strict
    mode and leaves the object as it is. *)
Definition set (o : value) (key : jsstring) (v : value) : M unit :=
  match o with
  | VRef l =>
      c ← load l;
      if reaches_proto_setter (body_of c) key then proto_setter v
      else if frozen c then throw TypeError
      else
        match body_of c with
        | Fields k props => store l (Cell (Fields k (<[key := v]> props)) false)
        | _ => throw OutsideModel
        end
  | VUndefined | VNull => throw TypeError
  | _ => if bool_decide (key = js "__proto__") then proto_setter v else throw TypeError
  end.

(** [typeof v] *)
Definition typeof (v : value) : M jsstring :=
  match v with
  | VUndefined => mret (js "undefined")
  | VNull => mret (js "object")
  | VBoolean _ => mret (js "boolean")
  | VNumber _ => mret (js "number")
  | VString _ => mret (js "string")
  | VRef l =>
      c ← load l;
      mret (match body_of c with Code _ => js "function" | _ => js "object" end)
  end.

(** [a === b] *)
Definition strict_equals (a b : value) : bool :=
  match a, b with
  | VUndefined, VUndefined => true
  | VNull, VNull => true
  | VBoolean x, VBoolean y => bool_decide (x = y)
  | VNumber x, VNumber y => SFeqb x y
  | VString x, VString y => bool_decide (x = y)
  | VRef x, VRef y => bool_decide (x = y)
  | _, _ => false
  end.

(** [v instanceof C] for a class [C] of the file *)
Definition instanceof (v : value) (C : Class.t) : M bool :=
  match v with
  | VRef l =>
      c ← load l;
      mret (match body_of c with Fields k _ => bool_decide (k = C) | _ => false end)
  | _ => mret false
  end.

(** [key in o]: own and inherited properties count. *)
Definition has_property (key : jsstring) (o : value) : M bool :=
  match o with
  | VRef l =>
      c ← load l;
      match body_of c with
      | Fields k props => mret (bool_decide (is_Some (props !! key)) || inherited k key)
      | _ => throw OutsideModel
      end
  | _ => throw TypeError
  end.

(** The conversion of an operand of [/] and [%] to a Number *)
Definition to_number (v : value) : M Number.number :=
  match v with
  | VNumber x => mret x
  | VUndefined => mret Number.NaN
  | VNull => mret (S754_zero false)
  | VBoolean b => mret (Number.of_Z (if b then 1 else 0))
  | _ => throw OutsideModel
  end.

(** The conversion of a template-literal substitution to a String *)
Definition to_string (v : value) : M jsstring :=
  match v with
  | VString s => mret s
  | VNumber x => mret (Number.toString x)
  | VUndefined => mret (js "undefined")
  | VNull => mret (js "null")
  | VBoolean b => mret (if b then js "true" else js "false")
  | VRef _ => throw OutsideModel
  end.

Definition divide (a b : value) : M value :=
  x ← to_number a; y ← to_number b; mret (VNumber (Number.divide x y)).

Definition remainder (a b : value) : M value :=
  x ← to_number a; y ← to_number b; mret (VNumber (Number.remainder x y)).

Definition Math_floor (a : value) : M value :=
  x ← to_number a; mret (VNumber (Number.floor x)).

Definition num (z : Z) : value := VNumber (Number.of_Z z).
Definition str (s : string) : value := VString (js s).

(** *** Objects *)

(** An object literal [{ k1: v1, k2: v2, ... }]; a later key overrides an
    earlier equal one. *)
Definition properties (fields : list (string * value)) : gmap jsstring value :=
  foldl (λ m kv, <[js kv.1 := kv.2]> m) ∅ fields.

Definition object_literal (fields : list (string * value)) : M value :=
  alloc (Fields Class.Object (properties fields)).

(** The own enumerable properties that a spread [...src] copies. *)
Definition own_properties (src : value) : M (gmap jsstring value) :=
  match src with
  | VUndefined | VNull | VBoolean _ | VNumber _ => mret ∅
  | VRef l =>
      c ← load l;
      match body_of c with
      | Fields _ props => mret props
      | _ => throw OutsideModel
      end
  | VString _ => throw OutsideModel
  end.

(** [...src] inside an object literal whose properties so far are [acc] *)
Definition spread (acc : gmap jsstring value) (src : value) : M (gmap jsstring value) :=
  own ← own_properties src; mret (own ∪ acc).

(** [Object.freeze(o)] returns its argument; an object becomes frozen. *)
Definition Object_freeze (o : value) : M value :=
  match o with
  | VRef l => c ← load l; store l (Cell (body_of c) true);; mret o
  | _ => mret o
  end.

(** *** Arrays *)

(** [s.split('')]: a new array of the code units of [s], each as a string. *)
Definition String_split_empty (s : value) : M value :=
  match s with
  | VString u => alloc (Elements (map (λ c, Some (VString [c])) u))
  | VUndefined | VNull => throw TypeError
  | _ => throw OutsideModel
  end.

(** [a.slice()]: a new array with the elements (and holes) of [a]. *)
Definition Array_slice (a : value) : M value :=
  match a with
  | VRef l =>
      c ← load l;
      match body_of c with
      | Elements xs => alloc (Elements xs)
      | _ => throw OutsideModel
      end
  | VUndefined | VNull => throw TypeError
  | _ => throw OutsideModel
  end.

(** Reversing writes to the array unless every mirrored pair of positions
    consists of two holes. *)
Definition reverse_writes (xs : list (option value)) : bool :=
  existsb (λ p, bool_decide (is_Some p.1) || bool_decide (is_Some p.2))
          (take (length xs / 2)%nat (zip xs (rev xs))).

(** [a.reverse()]: reverses [a] in place and returns [a] itself. *)
Definition Array_reverse (a : value) : M value :=
  match a with
  | VRef l =>
      c ← load l;
      match body_of c with
      | Elements xs =>
          if frozen c then
            if reverse_writes xs then throw TypeError else mret a
          else store l (Cell (Elements (rev xs)) false);; mret a
      | _ => throw OutsideModel
      end
  | VUndefined | VNull => throw TypeError
  | _ => throw OutsideModel
  end.

(** One element of [a.join('')]: a hole, [undefined] and [null] give the
    empty string. *)
Definition join_element (x : option value) : M jsstring :=
  match x with
  | None | Some VUndefined | Some VNull => mret []
  | Some v => to_string v
  end.

Fixpoint join_elements (xs : list (option value)) : M jsstring :=
  match xs with
  | [] => mret []
  | x :: xs' => s ← join_element x; r ← join_elements xs'; mret (s ++ r)
  end.

(** [a.join('')] *)
Definition Array_join_empty (a : value) : M value :=
  match a with
  | VRef l =>
      c ← load l;
      match body_of c with
      | Elements xs => s ← join_elements xs; mret (VString s)
      | _ => throw OutsideModel
      end
  | VUndefined | VNull => throw TypeError
  | _ => throw OutsideModel
  end.

(** An array literal [[v1, v2, ...]] *)
Definition array_literal (vs : list value) : M value :=
  alloc (Elements (map Some vs)).

(** A function expression or a method of an object literal *)
Definition function_object (name : string) : M value := alloc (Code (js name)).

(** ** The functions and classes of app.ts *)

(** *** Type queries *)

Definition getProperty (obj : value) (key : jsstring) : M value :=
  get obj key.

(** *** Mapped types *)

Definition freeze (obj : value) : M value :=
  Object_freeze obj.

Definition updatePerson (person prop : value) : M value :=
  p ← spread ∅ person;
  q ← spread p prop;
  alloc (Fields Class.Object q).

Definition printAge (person : value) : M value :=
  n ← get person (js "name");
  sn ← to_string n;
  a ← get person (js "age");
  sa ← to_string a;
  mret (VString (sn ++ js " is " ++ sa)).

(** *** typeof and type guards *)

(** A constructor with parameter properties assigns them to the new object in
    the order of the parameters.  A field that is only declared ([kind] of
    [Album] and [Playlist], [list] of [List]) is assigned by nothing. *)
Definition new_Song (title duration : value) : M value :=
  this ← alloc (Fields Class.Song ∅);
  set this (js "title") title;;
  set this (js "duration") duration;;
  mret this.

Definition getSongDuration (item : value) : M value :=
  d ← get item (js "duration");
  t ← typeof d;
  if strict_equals (VString t) (str "string") then
    get item (js "duration")
  else
    duration ← get item (js "duration");
    q ← divide duration (num 60000);
    minutes ← Math_floor q;
    r ← divide duration (num 1000);
    seconds ← remainder r (num 60);
    sm ← to_string minutes;
    ss ← to_string seconds;
    mret (VString (sm ++ js ":" ++ ss)).

(** *** instanceof and type guards *)

Definition new_Album (title duration : value) : M value :=
  this ← alloc (Fields Class.Album ∅);
  set this (js "title") title;;
  set this (js "duration") duration;;
  mret this.

Definition new_Playlist (name songs : value) : M value :=
  this ← alloc (Fields Class.Playlist ∅);
  set this (js "name") name;;
  set this (js "songs") songs;;
  mret this.

Definition getItemName (item : value) : M value :=
  b ← instanceof item Class.Album;
  if (b : bool) then get item (js "title") else get item (js "name").

(** *** User-defined type guards *)

Definition isAlbum (item : value) : M bool :=
  instanceof item Class.Album.

Definition getName (item : value) : M value :=
  b ← isAlbum item;
  if (b : bool) then get item (js "title") else get item (js "name").

(** *** Literal type guards and the in operator *)

Definition isSong (item : value) : M bool :=
  has_property (js "title") item.

Definition getKindName (item : value) : M value :=
  k ← get item (js "kind");
  if strict_equals k (str "album") then get item (js "title")
  else get item (js "name").

(** *** Discriminated unions *)

Definition checkout (payload : value) : M unit :=
  t ← get payload (js "type");
  (if strict_equals t (str "stripe") then
     card ← get payload (js "card");
     cvc ← get payload (js "cvc");
     console_log [card; cvc]
   else mret ());;
  t' ← get payload (js "type");
  if strict_equals t' (str "paypal") then
    email ← get payload (js "email");
    console_log [email]
  else mret ().

(** *** Interfaces and classes *)

Definition new_BandCreator (name : value) : M value :=
  this ← alloc (Fields Class.BandCreator ∅);
  set this (js "name") name;;
  mret this.

Definition groupFactory (arg : value) : M value :=
  name ← get arg (js "name");
  new_BandCreator name.

(** *** Generics *)

Definition new_Cake (name price : value) : M value :=
  this ← alloc (Fields Class.Cake ∅);
  set this (js "name") name;;
  set this (js "price") price;;
  mret this.

Module List_.
(** [class List<T>]: the constructor assigns nothing, and the body of
    [addItem] is a comment. *)
Definition new : M value :=
  alloc (Fields Class.List ∅).

Definition addItem (this item : value) : M value :=
  mret VUndefined.

Definition getList (this : value) : M value :=
  get this (js "list").
End List_.

Definition new_Coupon (name : value) : M value :=
  this ← alloc (Fields Class.Coupon ∅);
  set this (js "name") name;;
  mret this.

(** *** Overloads *)

Definition reverse (stringOrArray : value) : M value :=
  t ← typeof stringOrArray;
  if strict_equals (VString t) (str "string") then
    parts ← String_split_empty stringOrArray;
    reversed ← Array_reverse parts;
    Array_join_empty reversed
  else
    copy ← Array_slice stringOrArray;
    Array_reverse copy.

(** *** Enums *)

(** One member [name = n] of an enum: [E[E["name"] = n] = "name"]. *)
Definition enum_member (e : value) (member : string * Z) : M unit :=
  set e (js member.1) (num member.2);;
  set e (Number.toString (Number.of_Z member.2)) (str member.1).

Fixpoint enum_members (e : value) (members : list (string * Z)) : M unit :=
  match members with
  | [] => mret ()
  | member :: rest => enum_member e member;; enum_members e rest
  end.

(** An [enum] declaration, as compiled: [(function (E) { ... })(E || (E = {}))].
    The first declaration of a name finds its variable without a value and
    binds a new object to it; a later declaration of the same name extends
    that object. *)
Definition enum (x : string) (members : list (string * Z)) : M unit := λ σ,
  match bindings σ !! js x with
  | Some (_, e) => enum_members e members σ
  | None => (e ← object_literal []; declare Var x e;; enum_members e members) σ
  end.

(** [const enum Size] is inlined where it is used. *)
Module Size.
Definition Small : value := str "small".
Definition Medium : value := str "medium".
Definition Large : value := str "large".
End Size.

Definition updateSize (size : value) : M value :=
  assign "selected" size;;
  mret VUndefined.

(** *** Declaration files *)

Definition new_Gym (name : value) : M value :=
  this ← alloc (Fields Class.Gym ∅);
  set this (js "name") name;;
  mret this.

Definition athlete (this age : value) : M value :=
  mret VUndefined.

(** ** The imported library *)

(** Modelled from the spec: the utility library [lodash], which the file
    imports as [_] and which is not part of the repository.  The spec names the
    two calls that the file makes, array chunking and a mixin-style extension.
    The imported object is held in the store with these two functions as its
    properties. *)
Definition import_lodash : M unit :=
  chunk ← function_object "chunk";
  mixin ← function_object "mixin";
  library ← object_literal [("chunk", chunk); ("mixin", mixin)];
  declare Const "_" library.

Definition is_function (h : gmap loc cell) (v : value) : bool :=
  match v with
  | VRef l => match h !! l with Some (Cell (Code _) _) => true | _ => false end
  | _ => false
  end.

Definition functions_of (own : gmap jsstring value) : M (gmap jsstring value) := λ σ,
  (Normal (filter (λ kv : jsstring * value, is_function (heap σ) kv.2 = true) own), σ).

(** Modelled from the spec: [_.mixin(source)], the mixin-style extension, adds
    the own function-valued properties of [source] to the imported object. *)
Definition lodash_mixin (source : value) : M unit :=
  target ← read "_";
  own ← own_properties source;
  functions ← functions_of own;
  match target with
  | VRef l =>
      c ← load l;
      match body_of c with
      | Fields k props =>
          if frozen c then throw OutsideModel
          else store l (Cell (Fields k (functions ∪ props)) false)
      | _ => throw OutsideModel
      end
  | _ => throw OutsideModel
  end;;
  lodash "mixin" [source].

(** Modelled from the spec: [_.chunk(array, size)], array chunking; the file
    discards the result, the call is recorded. *)
Definition lodash_chunk (array size : value) : M unit :=
  lodash "chunk" [array; size].

(** ** The top-level statements *)

(** [const x = e], [let x = e] and an expression statement *)
Definition const (x : string) (e : M value) : M unit :=
  v ← e; declare Const x v.
Definition let_ (x : string) (e : M value) : M unit :=
  v ← e; declare Let x v.
Definition expression {A} (e : M A) : M unit :=
  e;; mret ().

Definition name_age (name : string) (age : Z) : M value :=
  object_literal [("name", str name); ("age", num age)].

(** The statements in the order of the file, the import first.  Interfaces,
    type aliases and [const enum Size] are erased by the compiler.  The
    declarations of functions and classes bind names that no statement of the
    file assigns and whose objects no statement changes; they are the
    definitions above and are not held in the store. *)
Definition program : list (M unit) := [
  import_lodash;
  const "man" (name_age "Tyler" 30);
  const "personName" (man ← read "man"; getProperty man (js "name"));
  const "person" (name_age "Tyler" 30);
  const "newPerson" (person ← read "person"; freeze person);
  expression (person ← read "person";
              prop ← object_literal [("name", str "Joe")];
              updatePerson person prop);
  const "person1" (name_age "Tyler" 30);
  const "age" (person1 ← read "person1"; printAge person1);
  const "person2" (name_age "Tyler" 30);
  let_ "dictionary" (object_literal []);
  const "item" (object_literal [("current", str "js02js9"); ("next", str "8nlksjsk")]);
  expression (dictionary ← read "dictionary";
              item ← read "item";
              set dictionary (Number.toString (Number.of_Z 0)) item);
  const "songDurationFromString"
    (song ← new_Song (str "Wonderful Wonderful") (str "05:31"); getSongDuration song);
  const "songDurationFromMS"
    (song ← new_Song (str "Wonderful Wonderful") (num 330000); getSongDuration song);
  const "albumName"
    (album ← new_Album (str "Wonderful Wonderful") (num 300000); getItemName album);
  const "playlistName"
    (album ← new_Album (str "The Man") (num 300000);
     songs ← array_literal [album];
     playlist ← new_Playlist (str "Best Albums") songs;
     getItemName playlist);
  const "order"
    (object_literal [("id", str "xj27s"); ("amount", num 100); ("currency", str "CAD")]);
  const "orderCard"
    (order ← read "order";
     p ← spread ∅ order;
     alloc (Fields Class.Object
              (<[js "cvc" := str "123"]>
                 (<[js "card" := str "1000 2000 3000 4000"]>
                    (<[js "type" := str "stripe"]> p)))));
  const "orderPayPal"
    (order ← read "order";
     p ← spread ∅ order;
     alloc (Fields Class.Object
              (<[js "email" := str "abc@def.com"]>
                 (<[js "type" := str "paypal"]> p))));
  const "newArtist"
    (getSongs ← function_object "getSongs";
     object_literal [("name", str "ABC"); ("songs", num 5); ("getSongs", getSongs)]);
  expression (arg ← object_literal [("name", str "Tyler")]; groupFactory arg);
  const "list" List_.new;
  expression (list ← read "list";
              cake ← new_Cake (str "Birthday") (num 15);
              List_.addItem list cake);
  const "cakes" (list ← read "list"; List_.getList list);
  const "anotherList" List_.new;
  expression (anotherList ← read "anotherList";
              coupon ← new_Coupon (str "CAKE25");
              List_.addItem anotherList coupon);
  expression (reverse (str "Birthday"));
  expression (arr ← array_literal [str "frosting"; str "vanilla"; str "smarties"];
              reverse arr);
  enum "Sizes" [("Small", 0); ("Medium", 1); ("Large", 2)];
  enum "Sizes" [("ExtraLarge", 3)];
  const "selectedSizes" (mret (num 2));
  let_ "selected" (mret Size.Small);
  expression (updateSize Size.Large);
  expression (arr ← array_literal [num 1; num 2; num 3; num 4];
              lodash_chunk arr (num 2));
  expression (log ← function_object "log";
              arg ← object_literal [("log", log)];
              lodash_mixin arg)
].

(** The states after each statement; a statement that throws ends the run. *)
Fixpoint trace (stmts : list (M unit)) (σ : state) : list state :=
  match stmts with
  | [] => []
  | s :: rest =>
      match s σ with
      | (Normal _, σ') => σ' :: trace rest σ'
      | (Throws _, σ') => [σ']
      end
  end.

Definition final (stmts : list (M unit)) (σ : state) : state :=
  List.last (trace stmts σ) σ.

(** What a variable holds in a state: the value bound to it and, for a
    reference, the object it refers to. *)
Definition holds (σ : state) (x : jsstring) : option (value * option cell) :=
  match bindings σ !! x with
  | Some (_, VRef l) => Some (VRef l, heap σ !! l)
  | Some (_, v) => Some (v, None)
  | None => None
  end.

(** What a variable holds when it has just been initialised: in the first
    state of the run in which it is bound. *)
Fixpoint initially (states : list state) (x : jsstring) : option (value * option cell) :=
  match states with
  | [] => None
  | σ :: rest =>
      match holds σ x with
      | Some h => Some h
      | None => initially rest x
      end
  end.

Definition variables (σ : state) : gset jsstring := dom (bindings σ).

(** The variables that hold at the end something else than when they were
    initialised. *)
Definition changed (stmts : list (M unit)) (σ : state) : gset jsstring :=
  filter (λ x, initially (trace stmts σ) x ≠ holds (final stmts σ) x)
         (variables (final stmts σ)).

(** The statements one after the other, as one computation. *)
Fixpoint run (stmts : list (M unit)) : M unit :=
  match stmts with
  | [] => mret ()
  | s :: rest => s;; run rest
  end.

(** ** Auxiliary definitions of the properties *)

(** A sequence of [addItem] calls on one list. *)
Fixpoint addItems (this : value) (items : list value) : M unit :=
  match items with
  | [] => mret ()
  | item :: rest => List_.addItem this item;; addItems this rest
  end.

(** The text the specification gives for a numeric duration [d]:
    [floor(d / 60000)], a colon, and [(d / 1000) mod 60], each operation being
    the one of Numbers and each Number written as a template literal writes
    it. *)
Definition minutes_colon_seconds (d : Number.number) : jsstring :=
  Number.toString (Number.floor (Number.divide d (Number.of_Z 60000)))
  ++ js ":" ++
  Number.toString (Number.remainder (Number.divide d (Number.of_Z 1000)) (Number.of_Z 60)).

(** The same text for a duration of [k] whole seconds, in integer arithmetic. *)
Definition whole_seconds_text (k : Z) : jsstring :=
  Number.digits (k / 60) ++ js ":" ++ Number.digits (k mod 60).

(** The state a computation leaves when it starts from the empty state. *)
Definition state_after {A} (m : M A) : state := (m empty_state).2.

(** Concrete states: the values that the statements of the file build. *)
Definition album_state : state :=
  state_after (new_Album (str "Wonderful Wonderful") (num 300000)).
Definition song_string_state : state :=
  state_after (new_Song (str "Wonderful Wonderful") (str "05:31")).
Definition song_number_state : state :=
  state_after (new_Song (str "Wonderful Wonderful") (num 330000)).
Definition person_state : state :=
  state_after (name_age "Tyler" 30;; object_literal [("name", str "Joe")]).
Definition array_state : state :=
  state_after (array_literal [str "frosting"; str "vanilla"; str "smarties"]).

(** ** Auxiliary definitions of the further properties *)

(** A computation that leaves the state of the model as it is. *)
Definition read_only {A} (m : M A) : Prop := ∀ σ, (m σ).2 = σ.

(** An outcome that the model covers: a result or a thrown TypeError. *)
Definition modelled {A} (r : outcome A) : Prop := r ≠ Throws OutsideModel.

(** The text of a duration of [- k] whole seconds, [0 < k]: the minutes are
    rounded down, the seconds keep the sign of the duration. *)
Definition negative_seconds_text (k : Z) : jsstring :=
  js "-" ++ Number.digits ((k + 59) / 60) ++ js ":" ++
  (if k mod 60 =? 0 then js "0" else js "-" ++ Number.digits (k mod 60)).

Definition frozen_person_state : state :=
  state_after (person ← name_age "Tyler" 30; freeze person;;
               object_literal [("name", str "Joe")]).
Definition nested_state : state :=
  state_after (item ← object_literal [("current", str "js02js9"); ("next", str "8nlksjsk")];
               object_literal [("0", item)]).
Definition song_negative_state : state :=
  state_after (new_Song (str "Wonderful Wonderful") (num (-90000))).
Definition selected_state : state :=
  state_after (let_ "selected" (mret Size.Small)).
Definition orders_state : state :=
  state_after (object_literal [("id", str "xj27s"); ("type", str "stripe");
                               ("card", str "1000 2000 3000 4000"); ("cvc", str "123")];;
               object_literal [("id", str "xj27s"); ("type", str "paypal");
                               ("email", str "abc@def.com")]).

(** ** Running computations *)

Section Execution.
Implicit Types (σ : state) (l : loc) (v : value) (key : jsstring).

Lemma bind_run {A B} (m : M A) (f : A → M B) σ :
  (m ≫= f) σ =
  match m σ with
  | (Normal a, σ') => f a σ'
  | (Throws e, σ') => (Throws e, σ')
  end.
Proof. reflexivity. Qed.

Lemma bind_normal {A B} (m : M A) (f : A → M B) σ a σ' :
  m σ = (Normal a, σ') → (m ≫= f) σ = f a σ'.
Proof. intros H. rewrite bind_run, H. reflexivity. Qed.

Lemma bind_throws {A B} (m : M A) (f : A → M B) σ e σ' :
  m σ = (Throws e, σ') → (m ≫= f) σ = (Throws e, σ').
Proof. intros H. rewrite bind_run, H. reflexivity. Qed.

Lemma ret_run {A} (a : A) σ : (mret a : M A) σ = (Normal a, σ).
Proof. reflexivity. Qed.

Lemma load_run σ l c : heap σ !! l = Some c → load l σ = (Normal c, σ).
Proof. intros H. unfold load. rewrite H. reflexivity. Qed.

Lemma fresh_unused σ : heap σ !! fresh (dom (heap σ)) = None.
Proof. apply not_elem_of_dom, is_fresh. Qed.

Lemma get_field σ l k props fr key :
  heap σ !! l = Some (Cell (Fields k props) fr) →
  inherited k key = false →
  get (VRef l) key σ = (Normal (default VUndefined (props !! key)), σ).
Proof.
  intros H Hk. unfold get. rewrite (bind_normal _ _ _ _ _ (load_run _ _ _ H)). simpl.
  rewrite Hk. destruct (props !! key); reflexivity.
Qed.

Lemma get_own σ l k props fr key v :
  heap σ !! l = Some (Cell (Fields k props) fr) →
  props !! key = Some v →
  get (VRef l) key σ = (Normal v, σ).
Proof.
  intros H Hv. unfold get. rewrite (bind_normal _ _ _ _ _ (load_run _ _ _ H)). simpl.
  rewrite Hv. reflexivity.
Qed.

Lemma reaches_proto_setter_other b key :
  bool_decide (key = js "__proto__") = false → reaches_proto_setter b key = false.
Proof. intros H. unfold reaches_proto_setter. rewrite H. reflexivity. Qed.

Lemma instanceof_object σ l k props fr C :
  heap σ !! l = Some (Cell (Fields k props) fr) →
  instanceof (VRef l) C σ = (Normal (bool_decide (k = C)), σ).
Proof. intros H. unfold instanceof. rewrite (bind_normal _ _ _ _ _ (load_run _ _ _ H)). reflexivity. Qed.

Lemma alloc_run σ b :
  alloc b σ = (Normal (VRef (fresh (dom (heap σ)))),
               with_heap (<[fresh (dom (heap σ)) := Cell b false]> (heap σ)) σ).
Proof. reflexivity. Qed.

Lemma set_field σ l k props key v :
  heap σ !! l = Some (Cell (Fields k props) false) →
  bool_decide (key = js "__proto__") = false →
  set (VRef l) key v σ =
    (Normal (), with_heap (<[l := Cell (Fields k (<[key := v]> props)) false]> (heap σ)) σ).
Proof.
  intros H Hk. unfold set. rewrite (bind_normal _ _ _ _ _ (load_run _ _ _ H)). simpl.
  rewrite (reaches_proto_setter_other _ _ Hk). reflexivity.
Qed.

Lemma set_frozen σ l b key v :
  heap σ !! l = Some (Cell b true) →
  bool_decide (key = js "__proto__") = false →
  set (VRef l) key v σ = (Throws TypeError, σ).
Proof.
  intros H Hk. unfold set. rewrite (bind_normal _ _ _ _ _ (load_run _ _ _ H)). simpl.
  rewrite (reaches_proto_setter_other _ _ Hk). reflexivity.
Qed.

(** No assignment changes a frozen object, whatever the key and the value. *)
Lemma set_frozen_state σ l b key v :
  heap σ !! l = Some (Cell b true) →
  (set (VRef l) key v σ).2 = σ.
Proof.
  intros H. unfold set. rewrite (bind_normal _ _ _ _ _ (load_run _ _ _ H)). simpl.
  destruct (reaches_proto_setter b key); [destruct v|]; reflexivity.
Qed.

Lemma with_heap_heap h σ : heap (with_heap h σ) = h.
Proof. reflexivity. Qed.

Lemma with_heap_twice h h' σ : with_heap h' (with_heap h σ) = with_heap h' σ.
Proof. reflexivity. Qed.

(** A constructor that assigns two parameter properties. *)
Lemma construct_two c k1 v1 k2 v2 σ :
  bool_decide (k1 = js "__proto__") = false →
  bool_decide (k2 = js "__proto__") = false →
  (this ← alloc (Fields c ∅); set this k1 v1;; set this k2 v2;; mret this) σ =
  (Normal (VRef (fresh (dom (heap σ)))),
   with_heap (<[fresh (dom (heap σ)) :=
                  Cell (Fields c (<[k2 := v2]> (<[k1 := v1]> ∅))) false]> (heap σ)) σ).
Proof.
  intros H1 H2.
  rewrite (bind_normal _ _ _ _ _ (alloc_run _ _)).
  erewrite (bind_normal (set _ _ _)); [|apply set_field; [rewrite with_heap_heap; apply lookup_insert_eq|assumption]].
  erewrite (bind_normal (set _ _ _)); [|apply set_field; [rewrite with_heap_heap; apply lookup_insert_eq|assumption]].
  rewrite ret_run, !with_heap_twice, !with_heap_heap, !insert_insert_eq. reflexivity.
Qed.

Lemma freeze_run σ l c :
  heap σ !! l = Some c →
  freeze (VRef l) σ =
    (Normal (VRef l), with_heap (<[l := Cell (body_of c) true]> (heap σ)) σ).
Proof.
  intros H. unfold freeze, Object_freeze.
  rewrite (bind_normal _ _ _ _ _ (load_run _ _ _ H)). reflexivity.
Qed.

Lemma own_properties_fields σ l k props fr :
  heap σ !! l = Some (Cell (Fields k props) fr) →
  own_properties (VRef l) σ = (Normal props, σ).
Proof.
  intros H. unfold own_properties.
  rewrite (bind_normal _ _ _ _ _ (load_run _ _ _ H)). reflexivity.
Qed.

Lemma spread_fields acc σ l k props fr :
  heap σ !! l = Some (Cell (Fields k props) fr) →
  spread acc (VRef l) σ = (Normal (props ∪ acc), σ).
Proof.
  intros H. unfold spread.
  rewrite (bind_normal _ _ _ _ _ (own_properties_fields _ _ _ _ _ H)). reflexivity.
Qed.

Lemma typeof_array σ l xs fr :
  heap σ !! l = Some (Cell (Elements xs) fr) →
  typeof (VRef l) σ = (Normal (js "object"), σ).
Proof.
  intros H. unfold typeof.
  rewrite (bind_normal _ _ _ _ _ (load_run _ _ _ H)). reflexivity.
Qed.

Lemma Array_slice_run σ l xs fr :
  heap σ !! l = Some (Cell (Elements xs) fr) →
  Array_slice (VRef l) σ =
    (Normal (VRef (fresh (dom (heap σ)))),
     with_heap (<[fresh (dom (heap σ)) := Cell (Elements xs) false]> (heap σ)) σ).
Proof.
  intros H. unfold Array_slice.
  rewrite (bind_normal _ _ _ _ _ (load_run _ _ _ H)). apply alloc_run.
Qed.

Lemma Array_reverse_run σ l xs :
  heap σ !! l = Some (Cell (Elements xs) false) →
  Array_reverse (VRef l) σ =
    (Normal (VRef l), with_heap (<[l := Cell (Elements (rev xs)) false]> (heap σ)) σ).
Proof.
  intros H. unfold Array_reverse.
  rewrite (bind_normal _ _ _ _ _ (load_run _ _ _ H)). reflexivity.
Qed.

(** Joining the array that [split('')] builds gives the string back. *)
Lemma join_code_units (u : jsstring) σ :
  join_elements (map (λ c, Some (VString [c])) u) σ = (Normal u, σ).
Proof.
  induction u as [|c u IH]; [reflexivity|].
  simpl. rewrite bind_run. simpl. rewrite bind_run, IH. reflexivity.
Qed.

Lemma Array_join_empty_run σ l xs fr s :
  heap σ !! l = Some (Cell (Elements xs) fr) →
  join_elements xs σ = (Normal s, σ) →
  Array_join_empty (VRef l) σ = (Normal (VString s), σ).
Proof.
  intros H Hj. unfold Array_join_empty.
  rewrite (bind_normal _ _ _ _ _ (load_run _ _ _ H)). simpl.
  rewrite (bind_normal _ _ _ _ _ Hj). reflexivity.
Qed.

Lemma addItems_run this items σ : addItems this items σ = (Normal (), σ).
Proof. induction items as [|item rest IH]; [reflexivity|]. simpl. exact IH. Qed.

Lemma getSongDuration_string_run σ l props fr s :
  heap σ !! l = Some (Cell (Fields Class.Song props) fr) →
  props !! js "duration" = Some (VString s) →
  getSongDuration (VRef l) σ = (Normal (VString s), σ).
Proof.
  intros Hl Hd. unfold getSongDuration.
  rewrite (bind_normal _ _ _ _ _ (get_field _ _ _ _ _ (js "duration") Hl eq_refl)).
  rewrite Hd. simpl default.
  rewrite (bind_normal (typeof (VString s)) _ σ (js "string") σ eq_refl).
  change (strict_equals (VString (js "string")) (str "string")) with true. cbv iota.
  rewrite (get_field _ _ _ _ _ (js "duration") Hl eq_refl), Hd. reflexivity.
Qed.

Lemma getSongDuration_number_run σ l props fr d :
  heap σ !! l = Some (Cell (Fields Class.Song props) fr) →
  props !! js "duration" = Some (VNumber d) →
  getSongDuration (VRef l) σ = (Normal (VString (minutes_colon_seconds d)), σ).
Proof.
  intros Hl Hd. unfold getSongDuration.
  rewrite (bind_normal _ _ _ _ _ (get_field _ _ _ _ _ (js "duration") Hl eq_refl)).
  rewrite Hd. simpl default.
  rewrite (bind_normal (typeof (VNumber d)) _ σ (js "number") σ eq_refl).
  change (strict_equals (VString (js "number")) (str "string")) with false. cbv iota.
  rewrite (bind_normal _ _ _ _ _ (get_field _ _ _ _ _ (js "duration") Hl eq_refl)).
  rewrite Hd. reflexivity.
Qed.

Lemma new_Song_run title duration σ :
  new_Song title duration σ =
  (Normal (VRef (fresh (dom (heap σ)))),
   with_heap (<[fresh (dom (heap σ)) :=
      Cell (Fields Class.Song (<[js "duration" := duration]> (<[js "title" := title]> ∅)))
           false]> (heap σ)) σ).
Proof. apply construct_two; reflexivity. Qed.

End Execution.

(** A closed fact about maps and sets is decided by evaluation. *)
Ltac evaluate := apply (bool_decide_unpack _); vm_compute; exact I.

(** ** Properties *)

Section Claims.
Implicit Types (σ : state) (l : loc) (v : value) (key : jsstring).

(** C1: for every string [s], [reverse(s)] returns the string of the code
    units of [s] in reverse order, and it leaves every object of the store
    and every variable as it was; in particular [reverse('Birthday')]
    returns ['yadhtriB']. *)
Theorem reverse_string (s : jsstring) σ :
  (∃ σ', reverse (VString s) σ = (Normal (VString (rev s)), σ') ∧
         (∀ l, is_Some (heap σ !! l) → heap σ' !! l = heap σ !! l) ∧
         bindings σ' = bindings σ) ∧
  (reverse (str "Birthday") σ).1 = Normal (str "yadhtriB").
Proof.
  assert (H : ∀ u, reverse (VString u) σ =
            (Normal (VString (rev u)),
             with_heap (<[fresh (dom (heap σ)) :=
                Cell (Elements (map (λ c, Some (VString [c])) (rev u))) false]> (heap σ)) σ)).
  { intros u. unfold reverse.
    rewrite (bind_normal (typeof (VString u)) _ σ (js "string") σ eq_refl).
    change (strict_equals (VString (js "string")) (str "string")) with true. cbv iota.
    unfold String_split_empty. rewrite (bind_normal _ _ _ _ _ (alloc_run _ _)).
    erewrite (bind_normal (Array_reverse _));
      [|apply Array_reverse_run; rewrite with_heap_heap; apply lookup_insert_eq].
    rewrite with_heap_twice, !with_heap_heap, insert_insert_eq, <- map_rev.
    eapply Array_join_empty_run; [apply lookup_insert_eq|apply join_code_units]. }
  split.
  - eexists. split; [apply H|]. split; [|reflexivity].
    intros l [c Hc]. apply lookup_insert_ne. intros <-.
    rewrite fresh_unused in Hc. discriminate.
  - unfold str. rewrite H. reflexivity.
Qed.

(** C2: for a Song whose duration is the Number [d], [getSongDuration]
    returns the text of [floor(d / 60000)], a colon, and the text of
    [(d / 1000) % 60]; for the Number 330000 this is ['5:30']. *)
Theorem getSongDuration_number σ l props fr d
    (Hsong : heap σ !! l = Some (Cell (Fields Class.Song props) fr))
    (Hduration : props !! js "duration" = Some (VNumber d)) :
  getSongDuration (VRef l) σ = (Normal (VString (minutes_colon_seconds d)), σ) ∧
  (d = Number.of_Z 330000 →
   getSongDuration (VRef l) σ = (Normal (str "5:30"), σ)).
Proof.
  pose proof (getSongDuration_number_run _ _ _ _ _ Hsong Hduration) as H.
  split; [exact H|]. intros ->. rewrite H. reflexivity.
Qed.

(** C3: [updatePerson(p, prop)] returns a new object whose properties are
    those of [prop] where [prop] has one and those of [p] otherwise, and it
    leaves [p] and every other object of the store as it was. *)
Theorem updatePerson_merges σ lp kp p fp lq kq q fq
    (Hperson : heap σ !! lp = Some (Cell (Fields kp p) fp))
    (Hprop : heap σ !! lq = Some (Cell (Fields kq q) fq)) :
  ∃ l r σ',
    updatePerson (VRef lp) (VRef lq) σ = (Normal (VRef l), σ') ∧
    heap σ !! l = None ∧
    heap σ' !! l = Some (Cell (Fields Class.Object r) false) ∧
    (∀ key, r !! key = match q !! key with Some v => Some v | None => p !! key end) ∧
    heap σ' !! lp = Some (Cell (Fields kp p) fp) ∧
    (∀ l', l' ≠ l → heap σ' !! l' = heap σ !! l') ∧
    bindings σ' = bindings σ.
Proof.
  exists (fresh (dom (heap σ))), (q ∪ (p ∪ ∅)). eexists.
  assert (Hnew : heap σ !! fresh (dom (heap σ)) = None) by apply fresh_unused.
  split.
  { unfold updatePerson.
    rewrite (bind_normal _ _ _ _ _ (spread_fields _ _ _ _ _ _ Hperson)).
    rewrite (bind_normal _ _ _ _ _ (spread_fields _ _ _ _ _ _ Hprop)).
    apply alloc_run. }
  split; [exact Hnew|]. split; [apply lookup_insert_eq|]. split; [|split; [|split]].
  - intros key. rewrite (right_id_L ∅ (∪) p), lookup_union.
    destruct (q !! key), (p !! key); reflexivity.
  - rewrite with_heap_heap, lookup_insert_ne; [exact Hperson|]. congruence.
  - intros l' Hne. apply lookup_insert_ne. congruence.
  - reflexivity.
Qed.

(** C5: for an item that is an Album or a Playlist, [getName] and
    [getItemName] do the same: both return the title of an Album and the
    name of a Playlist. *)
Theorem getName_equals_getItemName σ l k props fr
    (Hitem : heap σ !! l = Some (Cell (Fields k props) fr))
    (Hclass : k = Class.Album ∨ k = Class.Playlist) :
  getName (VRef l) σ = getItemName (VRef l) σ ∧
  getItemName (VRef l) σ =
    (Normal (default VUndefined
               (props !! js (if bool_decide (k = Class.Album) then "title" else "name"))), σ).
Proof.
  split; [reflexivity|].
  unfold getItemName.
  rewrite (bind_normal _ _ _ _ _ (instanceof_object _ _ _ _ _ Class.Album Hitem)).
  destruct Hclass as [-> | ->];
    [change (bool_decide (Class.Album = Class.Album)) with true
    |change (bool_decide (Class.Playlist = Class.Album)) with false];
    cbv iota; apply (get_field _ _ _ _ _ _ Hitem); reflexivity.
Qed.

(** C6: [freeze(obj)] returns [obj] itself with every field as it was (and
    every other object untouched); after it, an attempted assignment to a
    field of the object, whatever the key and the value, leaves the state,
    hence every field, unchanged, and it throws a TypeError unless the key is
    [__proto__], which reaches the setter of [Object.prototype]. *)
Theorem freeze_keeps_fields σ l c key v
    (Hobj : heap σ !! l = Some c) :
  ∃ σ1,
    freeze (VRef l) σ = (Normal (VRef l), σ1) ∧
    heap σ1 !! l = Some (Cell (body_of c) true) ∧
    (∀ k, (get (VRef l) k σ1).1 = (get (VRef l) k σ).1) ∧
    (∀ l', l' ≠ l → heap σ1 !! l' = heap σ !! l') ∧
    (set (VRef l) key v σ1).2 = σ1 ∧
    (∀ k, (get (VRef l) k (set (VRef l) key v σ1).2).1 = (get (VRef l) k σ).1) ∧
    (key ≠ js "__proto__" → set (VRef l) key v σ1 = (Throws TypeError, σ1)).
Proof.
  eexists. split; [apply (freeze_run _ _ _ Hobj)|].
  set (σ1 := with_heap _ σ).
  assert (Hl : heap σ1 !! l = Some (Cell (body_of c) true)) by apply lookup_insert_eq.
  assert (Hget : ∀ k, (get (VRef l) k σ1).1 = (get (VRef l) k σ).1).
  { intros k. unfold get.
    rewrite !bind_run, (load_run _ _ _ Hl), (load_run _ _ _ Hobj).
    destruct (body_of c) as [k0 props| |]; cbn [body_of]; [|reflexivity..].
    destruct (props !! k); [|destruct (inherited k0 k)]; reflexivity. }
  split; [exact Hl|]. split; [exact Hget|]. split; [|split; [|split]].
  - intros l' Hne. apply lookup_insert_ne. congruence.
  - apply (set_frozen_state _ _ _ _ _ Hl).
  - intros k. rewrite (set_frozen_state _ _ _ _ _ Hl). apply Hget.
  - intros Hkey. apply (set_frozen _ _ _ _ _ Hl), bool_decide_eq_false_2, Hkey.
Qed.

(** C7: for every array, [reverse(arr)] returns a new array with the
    elements of [arr] in reverse order and leaves [arr], and every other
    object of the store, as it was. *)
Theorem reverse_array σ l xs fr
    (Harr : heap σ !! l = Some (Cell (Elements xs) fr)) :
  ∃ l' σ',
    reverse (VRef l) σ = (Normal (VRef l'), σ') ∧
    heap σ !! l' = None ∧
    heap σ' !! l' = Some (Cell (Elements (rev xs)) false) ∧
    heap σ' !! l = Some (Cell (Elements xs) fr) ∧
    (∀ l0, l0 ≠ l' → heap σ' !! l0 = heap σ !! l0).
Proof.
  exists (fresh (dom (heap σ))). eexists.
  assert (Hnew : heap σ !! fresh (dom (heap σ)) = None) by apply fresh_unused.
  split.
  { unfold reverse.
    rewrite (bind_normal _ _ _ _ _ (typeof_array _ _ _ _ Harr)).
    change (strict_equals (VString (js "object")) (str "string")) with false. cbv iota.
    rewrite (bind_normal _ _ _ _ _ (Array_slice_run _ _ _ _ Harr)).
    apply Array_reverse_run. rewrite with_heap_heap. apply lookup_insert_eq. }
  rewrite with_heap_twice, !with_heap_heap, insert_insert_eq.
  split; [exact Hnew|]. split; [apply lookup_insert_eq|]. split.
  - rewrite lookup_insert_ne; [exact Harr|]. congruence.
  - intros l0 Hne. apply lookup_insert_ne. congruence.
Qed.

(** C8: for a Song whose duration is a string, [getSongDuration] returns
    that string; in particular it returns ['05:31'] for
    [new Song('Wonderful Wonderful', '05:31')]. *)
Theorem getSongDuration_string σ l props fr s
    (Hsong : heap σ !! l = Some (Cell (Fields Class.Song props) fr))
    (Hduration : props !! js "duration" = Some (VString s)) :
  getSongDuration (VRef l) σ = (Normal (VString s), σ) ∧
  ((song ← new_Song (str "Wonderful Wonderful") (str "05:31");
    getSongDuration song) σ).1 = Normal (str "05:31").
Proof.
  split; [apply (getSongDuration_string_run _ _ _ _ _ Hsong Hduration)|].
  rewrite (bind_normal _ _ _ _ _ (new_Song_run _ _ _)).
  erewrite getSongDuration_string_run; [reflexivity|apply lookup_insert_eq|reflexivity].
Qed.

(** C9: a new List has no [list] field, and no sequence of [addItem] calls
    changes that: [getList()] returns [undefined] after the calls as it does
    on the fresh instance, and the calls leave the state as it was. *)
Theorem getList_undefined items σ :
  ∃ l σ1,
    List_.new σ = (Normal (VRef l), σ1) ∧
    heap σ1 !! l = Some (Cell (Fields Class.List ∅) false) ∧
    List_.getList (VRef l) σ1 = (Normal VUndefined, σ1) ∧
    addItems (VRef l) items σ1 = (Normal (), σ1) ∧
    (addItems (VRef l) items;; List_.getList (VRef l)) σ1 = (Normal VUndefined, σ1).
Proof.
  eexists _, _. split; [apply alloc_run|].
  set (l := fresh (dom (heap σ))). set (σ1 := with_heap _ σ).
  assert (Hl : heap σ1 !! l = Some (Cell (Fields Class.List ∅) false))
    by apply lookup_insert_eq.
  assert (Hg : List_.getList (VRef l) σ1 = (Normal VUndefined, σ1))
    by (unfold List_.getList; rewrite (get_field _ _ _ _ _ _ Hl) by reflexivity; reflexivity).
  split; [exact Hl|]. split; [exact Hg|]. split; [apply addItems_run|].
  rewrite (bind_normal _ _ _ _ _ (addItems_run _ _ _)). exact Hg.
Qed.

(** C10: an Album built by [new Album(title, duration)] has neither a
    [kind] nor a [name]: [getKindName] returns [undefined] for it, whereas
    [getItemName] returns its title. *)
Theorem getKindName_of_Album title duration σ :
  ∃ l σ1,
    new_Album (VString title) (VNumber duration) σ = (Normal (VRef l), σ1) ∧
    get (VRef l) (js "kind") σ1 = (Normal VUndefined, σ1) ∧
    get (VRef l) (js "name") σ1 = (Normal VUndefined, σ1) ∧
    getKindName (VRef l) σ1 = (Normal VUndefined, σ1) ∧
    getItemName (VRef l) σ1 = (Normal (VString title), σ1) ∧
    getKindName (VRef l) σ1 ≠ getItemName (VRef l) σ1.
Proof.
  eexists _, _. split; [apply construct_two; reflexivity|].
  set (l := fresh (dom (heap σ))).
  set (props := <[js "duration" := VNumber duration]> (<[js "title" := VString title]> ∅)).
  set (σ1 := with_heap _ σ).
  assert (Hl : heap σ1 !! l = Some (Cell (Fields Class.Album props) false))
    by apply lookup_insert_eq.
  assert (Hkind : get (VRef l) (js "kind") σ1 = (Normal VUndefined, σ1))
    by (rewrite (get_field _ _ _ _ _ _ Hl) by reflexivity; reflexivity).
  assert (Hname : get (VRef l) (js "name") σ1 = (Normal VUndefined, σ1))
    by (rewrite (get_field _ _ _ _ _ _ Hl) by reflexivity; reflexivity).
  assert (Htitle : get (VRef l) (js "title") σ1 = (Normal (VString title), σ1))
    by (rewrite (get_field _ _ _ _ _ _ Hl) by reflexivity; reflexivity).
  assert (Hk : getKindName (VRef l) σ1 = (Normal VUndefined, σ1)).
  { unfold getKindName. rewrite (bind_normal _ _ _ _ _ Hkind). exact Hname. }
  assert (Hi : getItemName (VRef l) σ1 = (Normal (VString title), σ1)).
  { unfold getItemName.
    rewrite (bind_normal _ _ _ _ _ (instanceof_object _ _ _ _ _ Class.Album Hl)).
    exact Htitle. }
  repeat split; try assumption.
  rewrite Hk, Hi. discriminate.
Qed.

End Claims.

(** ** The top-level statements as a whole *)

(** C4 fails as stated: [selected] is initialised to ['small'] and holds
    ['large'] at the end, so not every variable holds at the end what it held
    when it was initialised. *)
Lemma toplevel_changes_variables :
  ¬ (∀ x, x ∈ variables (final program empty_state) →
          initially (trace program empty_state) x = holds (final program empty_state) x).
Proof.
  intros H.
  assert (Hin : js "selected" ∈ variables (final program empty_state)) by evaluate.
  specialize (H _ Hin).
  assert (Hne : initially (trace program empty_state) (js "selected")
                ≠ holds (final program empty_state) (js "selected")) by evaluate.
  exact (Hne H).
Qed.

(** C4, amended: the statements all run without throwing and write nothing
    to the console; they call the imported library twice; and of the
    variables exactly five hold at the end something else than when they were
    initialised: [selected] goes from ['small'] to ['large'], the [dictionary]
    object gains the key ['0'] bound to the object of [item], the [person]
    object becomes frozen with its fields as they were, the object of the enum
    [Sizes] gains the member [ExtraLarge] with its reverse mapping by the
    second declaration of the enum, and the imported object [_] gains the
    function [log] by the mixin call. *)
Theorem toplevel_changes_exactly :
  run program empty_state = (Normal (), final program empty_state) ∧
  changed program empty_state =
    {[js "Sizes"; js "_"; js "dictionary"; js "person"; js "selected"]} ∧
  (initially (trace program empty_state) (js "selected") = Some (Size.Small, None) ∧
   holds (final program empty_state) (js "selected") = Some (Size.Large, None)) ∧
  (∃ ld li,
     initially (trace program empty_state) (js "dictionary") =
       Some (VRef ld, Some (Cell (Fields Class.Object ∅) false)) ∧
     holds (final program empty_state) (js "dictionary") =
       Some (VRef ld, Some (Cell (Fields Class.Object {[js "0" := VRef li]}) false)) ∧
     bindings (final program empty_state) !! js "item" = Some (Const, VRef li)) ∧
  (∃ lp b,
     initially (trace program empty_state) (js "person") = Some (VRef lp, Some (Cell b false)) ∧
     holds (final program empty_state) (js "person") = Some (VRef lp, Some (Cell b true))) ∧
  (∃ ls,
     initially (trace program empty_state) (js "Sizes") =
       Some (VRef ls, Some (Cell (Fields Class.Object
         (properties [("Small", num 0); ("0", str "Small"); ("Medium", num 1);
                      ("1", str "Medium"); ("Large", num 2); ("2", str "Large")])) false)) ∧
     holds (final program empty_state) (js "Sizes") =
       Some (VRef ls, Some (Cell (Fields Class.Object
         (properties [("Small", num 0); ("0", str "Small"); ("Medium", num 1);
                      ("1", str "Medium"); ("Large", num 2); ("2", str "Large");
                      ("ExtraLarge", num 3); ("3", str "ExtraLarge")])) false))) ∧
  (∃ l0 lc lm lf,
     initially (trace program empty_state) (js "_") =
       Some (VRef l0, Some (Cell (Fields Class.Object
         (properties [("chunk", VRef lc); ("mixin", VRef lm)])) false)) ∧
     holds (final program empty_state) (js "_") =
       Some (VRef l0, Some (Cell (Fields Class.Object
         (properties [("chunk", VRef lc); ("mixin", VRef lm); ("log", VRef lf)])) false)) ∧
     heap (final program empty_state) !! lf = Some (Cell (Code (js "log")) false)) ∧
  console (final program empty_state) = [] ∧
  (library (final program empty_state)).*1 = [js "chunk"; js "mixin"].
Proof.
  split; [evaluate|]. split; [evaluate|]. split; [split; evaluate|].
  split; [exists 10%positive, 11%positive; repeat split; evaluate|].
  split.
  { exists 5%positive, (Fields Class.Object (properties [("name", str "Tyler"); ("age", num 30)])).
    split; evaluate. }
  split; [exists 32%positive; split; evaluate|].
  split; [exists 3%positive, 1%positive, 2%positive, 34%positive; repeat split; evaluate|].
  split; evaluate.
Qed.

(** ** The duration text on whole seconds *)

(** For a duration below two hours that is a whole number [k] of seconds,
    the text is the one of integer arithmetic: the decimal [k / 60], a colon,
    and the decimal [k mod 60], without padding. *)
Lemma minutes_colon_seconds_whole (k : Z) :
  0 ≤ k < 7200 →
  minutes_colon_seconds (Number.of_Z (1000 * k)) = whole_seconds_text k.
Proof.
  intros Hk.
  assert (H : forallb (λ n, bool_decide
                (minutes_colon_seconds (Number.of_Z (1000 * Z.of_nat n))
                 = whole_seconds_text (Z.of_nat n))) (seq 0 (Z.to_nat 7200)) = true)
    by (vm_compute; reflexivity).
  rewrite forallb_forall in H.
  specialize (H (Z.to_nat k)). rewrite Z2Nat.id in H by lia.
  apply (bool_decide_eq_true_1 _), H, in_seq. lia.
Qed.

(** The remainder has the sign of the dividend, and a duration that is not a
    whole number of seconds shows the rounding of the division. *)
Example minutes_colon_seconds_negative :
  minutes_colon_seconds (Number.of_Z (-1500)) = js "-1:-1.5".
Proof. vm_compute. reflexivity. Qed.

Example minutes_colon_seconds_fraction :
  minutes_colon_seconds (Number.of_Z 330001) = js "5:30.000999999999976".
Proof. vm_compute. reflexivity. Qed.

(** ** The properties at the values of the file *)

Lemma getSongDuration_number_witness :
  heap song_number_state !! 1%positive =
    Some (Cell (Fields Class.Song
            (properties [("title", str "Wonderful Wonderful"); ("duration", num 330000)]))
          false) ∧
  getSongDuration (VRef 1%positive) song_number_state = (Normal (str "5:30"), song_number_state).
Proof.
  split; [evaluate|].
  refine (proj2 (getSongDuration_number song_number_state 1%positive
            (properties [("title", str "Wonderful Wonderful"); ("duration", num 330000)])
            false (Number.of_Z 330000) _ _) eq_refl); evaluate.
Defined.

Lemma getSongDuration_string_witness :
  heap song_string_state !! 1%positive =
    Some (Cell (Fields Class.Song
            (properties [("title", str "Wonderful Wonderful"); ("duration", str "05:31")]))
          false) ∧
  getSongDuration (VRef 1%positive) song_string_state = (Normal (str "05:31"), song_string_state).
Proof.
  split; [evaluate|].
  refine (proj1 (getSongDuration_string song_string_state 1%positive
            (properties [("title", str "Wonderful Wonderful"); ("duration", str "05:31")])
            false (js "05:31") _ _)); evaluate.
Defined.

Lemma updatePerson_merges_witness :
  ∃ l r σ',
    updatePerson (VRef 1%positive) (VRef 2%positive) person_state = (Normal (VRef l), σ') ∧
    heap person_state !! l = None ∧
    heap σ' !! l = Some (Cell (Fields Class.Object r) false) ∧
    (∀ key, r !! key =
       match properties [("name", str "Joe")] !! key with
       | Some v => Some v
       | None => properties [("name", str "Tyler"); ("age", num 30)] !! key
       end) ∧
    heap σ' !! 1%positive =
      Some (Cell (Fields Class.Object (properties [("name", str "Tyler"); ("age", num 30)]))
              false) ∧
    (∀ l', l' ≠ l → heap σ' !! l' = heap person_state !! l') ∧
    bindings σ' = bindings person_state.
Proof.
  apply (updatePerson_merges person_state 1%positive Class.Object _ false 2%positive Class.Object _ false);
    evaluate.
Defined.

Lemma getName_equals_getItemName_witness :
  getName (VRef 1%positive) album_state = getItemName (VRef 1%positive) album_state ∧
  getItemName (VRef 1%positive) album_state = (Normal (str "Wonderful Wonderful"), album_state).
Proof.
  refine (getName_equals_getItemName album_state 1%positive Class.Album
            (properties [("title", str "Wonderful Wonderful"); ("duration", num 300000)])
            false _ (or_introl eq_refl)).
  evaluate.
Defined.

Lemma freeze_keeps_fields_witness :
  ∃ σ1,
    freeze (VRef 1%positive) person_state = (Normal (VRef 1%positive), σ1) ∧
    heap σ1 !! 1%positive =
      Some (Cell (Fields Class.Object (properties [("name", str "Tyler"); ("age", num 30)]))
              true) ∧
    (∀ k, (get (VRef 1%positive) k σ1).1 = (get (VRef 1%positive) k person_state).1) ∧
    (∀ l', l' ≠ 1%positive → heap σ1 !! l' = heap person_state !! l') ∧
    (set (VRef 1%positive) (js "name") (str "Joe") σ1).2 = σ1 ∧
    (∀ k, (get (VRef 1%positive) k (set (VRef 1%positive) (js "name") (str "Joe") σ1).2).1
          = (get (VRef 1%positive) k person_state).1) ∧
    (js "name" ≠ js "__proto__" →
     set (VRef 1%positive) (js "name") (str "Joe") σ1 = (Throws TypeError, σ1)).
Proof.
  apply (freeze_keeps_fields person_state 1%positive
           (Cell (Fields Class.Object (properties [("name", str "Tyler"); ("age", num 30)]))
              false)).
  evaluate.
Defined.

Lemma reverse_array_witness :
  ∃ l' σ',
    reverse (VRef 1%positive) array_state = (Normal (VRef l'), σ') ∧
    heap array_state !! l' = None ∧
    heap σ' !! l' =
      Some (Cell (Elements [Some (str "smarties"); Some (str "vanilla"); Some (str "frosting")])
              false) ∧
    heap σ' !! 1%positive =
      Some (Cell (Elements [Some (str "frosting"); Some (str "vanilla"); Some (str "smarties")])
              false) ∧
    (∀ l0, l0 ≠ l' → heap σ' !! l0 = heap array_state !! l0).
Proof.
  apply (reverse_array array_state 1%positive
           [Some (str "frosting"); Some (str "vanilla"); Some (str "smarties")] false).
  evaluate.
Defined.

(** ** Further properties of the functions *)

Section Frames.
Implicit Types (σ : state) (l : loc) (v : value) (key : jsstring).

Lemma read_only_ret {A} (a : A) : read_only (mret a : M A).
Proof. intros σ. reflexivity. Qed.

Lemma read_only_throw {A} e : read_only (throw e : M A).
Proof. intros σ. reflexivity. Qed.

Lemma read_only_bind {A B} (m : M A) (f : A → M B) :
  read_only m → (∀ a, read_only (f a)) → read_only (m ≫= f).
Proof.
  intros Hm Hf σ. rewrite bind_run. specialize (Hm σ).
  destruct (m σ) as [[a|e] σ']; simpl in Hm; subst σ'; [apply Hf|reflexivity].
Qed.

Lemma read_only_load l : read_only (load l).
Proof. intros σ. unfold load. destruct (heap σ !! l); reflexivity. Qed.

Ltac read_only_core :=
  repeat first
    [ apply read_only_ret
    | apply read_only_throw
    | apply read_only_load
    | apply read_only_bind; [|intros ?]
    | match goal with
      | |- read_only (match ?x with _ => _ end) => destruct x
      end ].

Lemma read_only_get o key : read_only (get o key).
Proof. unfold get. read_only_core. Qed.

Lemma read_only_typeof v : read_only (typeof v).
Proof. unfold typeof. read_only_core. Qed.

Lemma read_only_instanceof v C : read_only (instanceof v C).
Proof. unfold instanceof. read_only_core. Qed.

Lemma read_only_has_property key o : read_only (has_property key o).
Proof. unfold has_property. read_only_core. Qed.

Lemma read_only_to_number v : read_only (to_number v).
Proof. unfold to_number. read_only_core. Qed.

Lemma read_only_to_string v : read_only (to_string v).
Proof. unfold to_string. read_only_core. Qed.

Ltac read_only_all :=
  repeat first
    [ apply read_only_ret
    | apply read_only_throw
    | apply read_only_get
    | apply read_only_typeof
    | apply read_only_instanceof
    | apply read_only_has_property
    | apply read_only_to_number
    | apply read_only_to_string
    | apply read_only_bind; [|intros ?]
    | match goal with
      | |- read_only (match ?x with _ => _ end) => destruct x
      end ].

(** X23: the functions of the file that only read ([getProperty],
    [printAge], [getSongDuration], [getItemName], [isAlbum], [getName],
    [isSong], [getKindName], [getList]) and [addItem] leave the whole state
    (store, variables, console) as it was whenever they return or throw a
    TypeError, that is on every argument whose behaviour the model covers. *)
Theorem readers_leave_state item key other σ :
  (modelled (getProperty item key σ).1 → (getProperty item key σ).2 = σ) ∧
  (modelled (printAge item σ).1 → (printAge item σ).2 = σ) ∧
  (modelled (getSongDuration item σ).1 → (getSongDuration item σ).2 = σ) ∧
  (modelled (getItemName item σ).1 → (getItemName item σ).2 = σ) ∧
  (modelled (isAlbum item σ).1 → (isAlbum item σ).2 = σ) ∧
  (modelled (getName item σ).1 → (getName item σ).2 = σ) ∧
  (modelled (isSong item σ).1 → (isSong item σ).2 = σ) ∧
  (modelled (getKindName item σ).1 → (getKindName item σ).2 = σ) ∧
  (modelled (List_.addItem item other σ).1 → (List_.addItem item other σ).2 = σ) ∧
  (modelled (List_.getList item σ).1 → (List_.getList item σ).2 = σ).
Proof.
  repeat split; intros _;
    match goal with |- (?m σ).2 = σ => revert σ; change (read_only m) end;
    unfold getProperty, printAge, getSongDuration, getItemName, isAlbum, getName, isSong,
      getKindName, List_.addItem, List_.getList, divide, remainder, Math_floor;
    read_only_all.
Qed.

End Frames.

Section Further.
Implicit Types (σ : state) (l : loc) (v : value) (key : jsstring).

Lemma heap_with_console c σ : heap (with_console c σ) = heap σ.
Proof. reflexivity. Qed.

Lemma construct_one c k1 v1 σ :
  bool_decide (k1 = js "__proto__") = false →
  (this ← alloc (Fields c ∅); set this k1 v1;; mret this) σ =
  (Normal (VRef (fresh (dom (heap σ)))),
   with_heap (<[fresh (dom (heap σ)) := Cell (Fields c (<[k1 := v1]> ∅)) false]> (heap σ)) σ).
Proof.
  intros H1.
  rewrite (bind_normal _ _ _ _ _ (alloc_run _ _)).
  erewrite (bind_normal (set _ _ _)); [|apply set_field; [rewrite with_heap_heap; apply lookup_insert_eq|assumption]].
  rewrite ret_run, !with_heap_twice, !with_heap_heap, !insert_insert_eq. reflexivity.
Qed.

Lemma updatePerson_run σ lp kp p fp lq kq q fq :
  heap σ !! lp = Some (Cell (Fields kp p) fp) →
  heap σ !! lq = Some (Cell (Fields kq q) fq) →
  updatePerson (VRef lp) (VRef lq) σ =
    (Normal (VRef (fresh (dom (heap σ)))),
     with_heap (<[fresh (dom (heap σ)) := Cell (Fields Class.Object (q ∪ p)) false]> (heap σ)) σ).
Proof.
  intros Hp Hq. unfold updatePerson.
  rewrite (bind_normal _ _ _ _ _ (spread_fields _ _ _ _ _ _ Hp)).
  rewrite (bind_normal _ _ _ _ _ (spread_fields _ _ _ _ _ _ Hq)).
  rewrite (right_id_L ∅ (∪) p). apply alloc_run.
Qed.

Lemma lookup_merge (q p : gmap jsstring value) key :
  default VUndefined ((q ∪ p) !! key) =
  match q !! key with Some v => v | None => default VUndefined (p !! key) end.
Proof. rewrite lookup_union. destruct (q !! key), (p !! key); reflexivity. Qed.

(** X1: reading a property of the record that [updatePerson(p, prop)]
    returns, under a key that is not one of those every object inherits, gives
    [prop]'s value when [prop] has the key (also when that value is
    [undefined]), else [p]'s value, else [undefined]. *)
Theorem getProperty_of_updatePerson σ lp kp p fp lq kq q fq key
    (Hperson : heap σ !! lp = Some (Cell (Fields kp p) fp))
    (Hprop : heap σ !! lq = Some (Cell (Fields kq q) fq))
    (Hkey : inherited Class.Object key = false) :
  ((r ← updatePerson (VRef lp) (VRef lq); getProperty r key) σ).1 =
  Normal (match q !! key with
          | Some v => v
          | None => default VUndefined (p !! key)
          end).
Proof.
  rewrite (bind_normal _ _ _ _ _ (updatePerson_run _ _ _ _ _ _ _ _ _ Hperson Hprop)).
  unfold getProperty. erewrite get_field; [|apply lookup_insert_eq|exact Hkey].
  simpl. f_equal. apply lookup_merge.
Qed.

(** X2: [updatePerson] of a frozen person returns a record that is not
    frozen: an assignment to it, under a key other than [__proto__], succeeds
    and is read back, while the person stays frozen and as it was. *)
Theorem updatePerson_of_frozen σ lp kp p lq kq q fq key v
    (Hperson : heap σ !! lp = Some (Cell (Fields kp p) true))
    (Hprop : heap σ !! lq = Some (Cell (Fields kq q) fq))
    (Hkey : key ≠ js "__proto__") :
  ∃ l σ1 σ2,
    updatePerson (VRef lp) (VRef lq) σ = (Normal (VRef l), σ1) ∧
    set (VRef l) key v σ1 = (Normal (), σ2) ∧
    get (VRef l) key σ2 = (Normal v, σ2) ∧
    heap σ2 !! lp = Some (Cell (Fields kp p) true) ∧
    set (VRef lp) key v σ2 = (Throws TypeError, σ2).
Proof.
  pose proof (bool_decide_eq_false_2 _ Hkey) as Hk.
  eexists _, _, _.
  split; [apply (updatePerson_run _ _ _ _ _ _ _ _ _ Hperson Hprop)|].
  split; [apply set_field; [apply lookup_insert_eq|exact Hk]|].
  rewrite with_heap_twice, with_heap_heap, insert_insert_eq.
  assert (Hne : fresh (dom (heap σ)) ≠ lp).
  { intros E. pose proof (fresh_unused σ) as Hf. rewrite E, Hperson in Hf. discriminate. }
  assert (Hlp : heap (with_heap (<[fresh (dom (heap σ)) :=
             Cell (Fields Class.Object (<[key := v]> (q ∪ p))) false]> (heap σ)) σ) !! lp
          = Some (Cell (Fields kp p) true)).
  { rewrite with_heap_heap, lookup_insert_ne by exact Hne. exact Hperson. }
  split; [|split; [exact Hlp|apply (set_frozen _ _ _ _ _ Hlp Hk)]].
  eapply get_own; [apply lookup_insert_eq|apply lookup_insert_eq].
Qed.

(** X3: with [undefined] or [null] for [prop], [updatePerson] returns a new
    object, distinct from the person, with exactly the person's properties. *)
Theorem updatePerson_without_prop σ lp kp p fp prop
    (Hperson : heap σ !! lp = Some (Cell (Fields kp p) fp))
    (Hprop : prop = VUndefined ∨ prop = VNull) :
  ∃ l σ',
    updatePerson (VRef lp) prop σ = (Normal (VRef l), σ') ∧
    l ≠ lp ∧
    heap σ' !! l = Some (Cell (Fields Class.Object p) false) ∧
    heap σ' !! lp = Some (Cell (Fields kp p) fp).
Proof.
  assert (Hne : fresh (dom (heap σ)) ≠ lp).
  { intros E. pose proof (fresh_unused σ) as Hf. rewrite E, Hperson in Hf. discriminate. }
  exists (fresh (dom (heap σ))). eexists. split.
  { unfold updatePerson.
    rewrite (bind_normal _ _ _ _ _ (spread_fields _ _ _ _ _ _ Hperson)).
    destruct Hprop as [-> | ->].
    - rewrite (bind_normal (spread (p ∪ ∅) VUndefined) _ σ (∅ ∪ (p ∪ ∅)) σ eq_refl).
      rewrite (left_id_L ∅ (∪)), (right_id_L ∅ (∪)). apply alloc_run.
    - rewrite (bind_normal (spread (p ∪ ∅) VNull) _ σ (∅ ∪ (p ∪ ∅)) σ eq_refl).
      rewrite (left_id_L ∅ (∪)), (right_id_L ∅ (∪)). apply alloc_run. }
  split; [exact Hne|]. split; [apply lookup_insert_eq|].
  rewrite with_heap_heap, lookup_insert_ne by exact Hne. exact Hperson.
Qed.

(** X4: freezing what [freeze] returned gives the same result and the same
    state as freezing once, for every value. *)
Theorem freeze_idempotent v σ :
  (r ← freeze v; freeze r) σ = freeze v σ.
Proof.
  destruct v; try reflexivity.
  destruct (heap σ !! l) as [c|] eqn:Hl.
  - rewrite (bind_normal _ _ _ _ _ (freeze_run _ _ _ Hl)).
    rewrite (freeze_run _ _ _ Hl).
    erewrite freeze_run by apply lookup_insert_eq.
    simpl. rewrite with_heap_twice, insert_insert_eq. reflexivity.
  - unfold freeze, Object_freeze. rewrite !bind_run. unfold load. rewrite Hl. reflexivity.
Qed.

(** X5: [freeze] is shallow: an unfrozen object that a field of the frozen
    object refers to is still read through that field and still assignable
    (under a key other than [__proto__]). *)
Theorem freeze_is_shallow σ l k props fr field l2 k2 props2 key v
    (Hobj : heap σ !! l = Some (Cell (Fields k props) fr))
    (Hfield : props !! field = Some (VRef l2))
    (Hinner : heap σ !! l2 = Some (Cell (Fields k2 props2) false))
    (Hne : l2 ≠ l)
    (Hkey : key ≠ js "__proto__") :
  ∃ σ1 σ2,
    freeze (VRef l) σ = (Normal (VRef l), σ1) ∧
    get (VRef l) field σ1 = (Normal (VRef l2), σ1) ∧
    set (VRef l2) key v σ1 = (Normal (), σ2) ∧
    get (VRef l2) key σ2 = (Normal v, σ2).
Proof.
  eexists _, _. split; [apply (freeze_run _ _ _ Hobj)|].
  split; [eapply get_own; [apply lookup_insert_eq|exact Hfield]|].
  split.
  { apply set_field; [|apply bool_decide_eq_false_2, Hkey].
    rewrite with_heap_heap, lookup_insert_ne by congruence. exact Hinner. }
  eapply get_own; [apply lookup_insert_eq|apply lookup_insert_eq].
Qed.

(** X6: for a person whose name is a string and whose age is a Number,
    [printAge] returns the name, [' is '] and the age as text, and changes
    nothing. *)
Theorem printAge_text σ l k props fr s x
    (Hperson : heap σ !! l = Some (Cell (Fields k props) fr))
    (Hname : props !! js "name" = Some (VString s))
    (Hage : props !! js "age" = Some (VNumber x)) :
  printAge (VRef l) σ = (Normal (VString (s ++ js " is " ++ Number.toString x)), σ).
Proof.
  unfold printAge.
  rewrite (bind_normal _ _ _ _ _ (get_field _ _ _ _ _ (js "name") Hperson eq_refl)), Hname.
  simpl default. rewrite (bind_normal (to_string (VString s)) _ σ s σ eq_refl).
  rewrite (bind_normal _ _ _ _ _ (get_field _ _ _ _ _ (js "age") Hperson eq_refl)), Hage.
  reflexivity.
Qed.

(** X7: for an object with neither a name nor an age, [printAge] throws
    nothing and returns ['undefined is undefined']. *)
Theorem printAge_missing σ l k props fr
    (Hperson : heap σ !! l = Some (Cell (Fields k props) fr))
    (Hname : props !! js "name" = None)
    (Hage : props !! js "age" = None) :
  printAge (VRef l) σ = (Normal (str "undefined is undefined"), σ).
Proof.
  unfold printAge.
  rewrite (bind_normal _ _ _ _ _ (get_field _ _ _ _ _ (js "name") Hperson eq_refl)), Hname.
  simpl default. rewrite (bind_normal (to_string VUndefined) _ σ (js "undefined") σ eq_refl).
  rewrite (bind_normal _ _ _ _ _ (get_field _ _ _ _ _ (js "age") Hperson eq_refl)), Hage.
  reflexivity.
Qed.


(** The text of a negative duration of whole seconds, checked on every
    [k] below two hours. *)
Lemma minutes_colon_seconds_negative_whole (k : Z) :
  0 < k < 7200 →
  minutes_colon_seconds (Number.of_Z (-1000 * k)) = negative_seconds_text k.
Proof.
  intros Hk.
  assert (H : forallb (λ n, bool_decide
                (minutes_colon_seconds (Number.of_Z (-1000 * Z.of_nat n))
                 = negative_seconds_text (Z.of_nat n))) (seq 1 (Z.to_nat 7199)) = true)
    by (vm_compute; reflexivity).
  rewrite forallb_forall in H.
  specialize (H (Z.to_nat k)). rewrite Z2Nat.id in H by lia.
  apply (bool_decide_eq_true_1 _), H, in_seq. lia.
Qed.

(** X8: for a duration of [k] whole seconds, [0 <= k < 7200],
    [getSongDuration] returns the decimal [k / 60], a colon and the decimal
    [k mod 60]; the seconds are not padded to two digits. *)
Theorem getSongDuration_whole_seconds σ l props fr k
    (Hsong : heap σ !! l = Some (Cell (Fields Class.Song props) fr))
    (Hduration : props !! js "duration" = Some (num (1000 * k)))
    (Hk : 0 ≤ k < 7200) :
  getSongDuration (VRef l) σ = (Normal (VString (whole_seconds_text k)), σ).
Proof.
  rewrite (getSongDuration_number_run _ _ _ _ _ Hsong Hduration).
  rewrite (minutes_colon_seconds_whole k Hk). reflexivity.
Qed.

(** X9: for a negative duration of [k] whole seconds, [0 < k < 7200], the
    minutes are rounded down and the seconds keep the sign: ['-'], the decimal
    of [k / 60] rounded up, a colon, and ['-'] with the decimal [k mod 60], or
    ['0'] when that is zero. *)
Theorem getSongDuration_negative_seconds σ l props fr k
    (Hsong : heap σ !! l = Some (Cell (Fields Class.Song props) fr))
    (Hduration : props !! js "duration" = Some (num (-1000 * k)))
    (Hk : 0 < k < 7200) :
  getSongDuration (VRef l) σ = (Normal (VString (negative_seconds_text k)), σ).
Proof.
  rewrite (getSongDuration_number_run _ _ _ _ _ Hsong Hduration).
  rewrite (minutes_colon_seconds_negative_whole k Hk). reflexivity.
Qed.

(** X10: for an object without a duration, [getSongDuration] throws nothing
    and returns ['NaN:NaN']. *)
Theorem getSongDuration_missing_duration σ l k props fr
    (Hitem : heap σ !! l = Some (Cell (Fields k props) fr))
    (Hduration : props !! js "duration" = None) :
  getSongDuration (VRef l) σ = (Normal (str "NaN:NaN"), σ).
Proof.
  unfold getSongDuration.
  rewrite (bind_normal _ _ _ _ _ (get_field _ _ _ _ _ (js "duration") Hitem eq_refl)).
  rewrite Hduration. simpl default.
  rewrite (bind_normal (typeof VUndefined) _ σ (js "undefined") σ eq_refl).
  change (strict_equals (VString (js "undefined")) (str "string")) with false. cbv iota.
  rewrite (bind_normal _ _ _ _ _ (get_field _ _ _ _ _ (js "duration") Hitem eq_refl)).
  rewrite Hduration. reflexivity.
Qed.

Lemma new_Playlist_run name songs σ :
  new_Playlist name songs σ =
  (Normal (VRef (fresh (dom (heap σ)))),
   with_heap (<[fresh (dom (heap σ)) :=
      Cell (Fields Class.Playlist (<[js "songs" := songs]> (<[js "name" := name]> ∅)))
           false]> (heap σ)) σ).
Proof. apply construct_two; reflexivity. Qed.

Lemma new_Album_run title duration σ :
  new_Album title duration σ =
  (Normal (VRef (fresh (dom (heap σ)))),
   with_heap (<[fresh (dom (heap σ)) :=
      Cell (Fields Class.Album (<[js "duration" := duration]> (<[js "title" := title]> ∅)))
           false]> (heap σ)) σ).
Proof. apply construct_two; reflexivity. Qed.

(** X11: on a Playlist built by [new Playlist(name, songs)], [getKindName]
    and [getItemName] agree: both return the name. *)
Theorem getKindName_of_Playlist name songs σ :
  ∃ l σ1,
    new_Playlist (VString name) songs σ = (Normal (VRef l), σ1) ∧
    getKindName (VRef l) σ1 = (Normal (VString name), σ1) ∧
    getItemName (VRef l) σ1 = (Normal (VString name), σ1).
Proof.
  eexists _, _. split; [apply new_Playlist_run|].
  set (l := fresh (dom (heap σ))). set (σ1 := with_heap _ σ).
  assert (Hl : heap σ1 !! l = Some (Cell (Fields Class.Playlist
            (<[js "songs" := songs]> (<[js "name" := VString name]> ∅))) false))
    by apply lookup_insert_eq.
  assert (Hkind : get (VRef l) (js "kind") σ1 = (Normal VUndefined, σ1))
    by (rewrite (get_field _ _ _ _ _ _ Hl) by reflexivity; reflexivity).
  assert (Hname : get (VRef l) (js "name") σ1 = (Normal (VString name), σ1))
    by (rewrite (get_field _ _ _ _ _ _ Hl) by reflexivity; reflexivity).
  split.
  - unfold getKindName. rewrite (bind_normal _ _ _ _ _ Hkind). exact Hname.
  - unfold getItemName.
    rewrite (bind_normal _ _ _ _ _ (instanceof_object _ _ _ _ _ Class.Album Hl)).
    exact Hname.
Qed.

(** X12: once [kind] has been assigned ['album'] on an Album built by
    [new Album(title, duration)], [getKindName] returns the title, as
    [getItemName] does. *)
Theorem getKindName_of_tagged_Album title duration σ :
  ∃ l σ1 σ2,
    new_Album (VString title) duration σ = (Normal (VRef l), σ1) ∧
    set (VRef l) (js "kind") (str "album") σ1 = (Normal (), σ2) ∧
    getKindName (VRef l) σ2 = (Normal (VString title), σ2) ∧
    getItemName (VRef l) σ2 = (Normal (VString title), σ2).
Proof.
  eexists _, _, _. split; [apply new_Album_run|].
  split; [apply set_field; [apply lookup_insert_eq|reflexivity]|].
  rewrite with_heap_twice, with_heap_heap, insert_insert_eq.
  set (l := fresh (dom (heap σ))). set (σ2 := with_heap _ σ).
  assert (Hl : heap σ2 !! l = Some (Cell (Fields Class.Album
            (<[js "kind" := str "album"]>
               (<[js "duration" := duration]> (<[js "title" := VString title]> ∅)))) false))
    by apply lookup_insert_eq.
  assert (Hkind : get (VRef l) (js "kind") σ2 = (Normal (str "album"), σ2))
    by (rewrite (get_field _ _ _ _ _ _ Hl) by reflexivity; reflexivity).
  assert (Htitle : get (VRef l) (js "title") σ2 = (Normal (VString title), σ2))
    by (rewrite (get_field _ _ _ _ _ _ Hl) by reflexivity; reflexivity).
  split.
  - unfold getKindName. rewrite (bind_normal _ _ _ _ _ Hkind). exact Htitle.
  - unfold getItemName.
    rewrite (bind_normal _ _ _ _ _ (instanceof_object _ _ _ _ _ Class.Album Hl)).
    exact Htitle.
Qed.

Lemma has_property_fields σ l k props fr key :
  heap σ !! l = Some (Cell (Fields k props) fr) →
  has_property key (VRef l) σ =
    (Normal (bool_decide (is_Some (props !! key)) || inherited k key), σ).
Proof.
  intros H. unfold has_property.
  rewrite (bind_normal _ _ _ _ _ (load_run _ _ _ H)). reflexivity.
Qed.

(** X13: [isSong] holds of a new Song and of a new Album alike, and not of a
    new Playlist: it tests for a title only. *)
Theorem isSong_of_constructed title duration name songs σ :
  ((song ← new_Song title duration; isSong song) σ).1 = Normal true ∧
  ((album ← new_Album title duration; isSong album) σ).1 = Normal true ∧
  ((playlist ← new_Playlist name songs; isSong playlist) σ).1 = Normal false.
Proof.
  split; [|split].
  - rewrite (bind_normal _ _ _ _ _ (new_Song_run _ _ _)). unfold isSong.
    erewrite has_property_fields by apply lookup_insert_eq. reflexivity.
  - rewrite (bind_normal _ _ _ _ _ (new_Album_run _ _ _)). unfold isSong.
    erewrite has_property_fields by apply lookup_insert_eq. reflexivity.
  - rewrite (bind_normal _ _ _ _ _ (new_Playlist_run _ _ _)). unfold isSong.
    erewrite has_property_fields by apply lookup_insert_eq. reflexivity.
Qed.

(** X14: for a payload of type ['stripe'], [checkout] writes one line to
    the console, the card and the cvc, and changes nothing else. *)
Theorem checkout_stripe σ l k props fr
    (Hpayload : heap σ !! l = Some (Cell (Fields k props) fr))
    (Htype : props !! js "type" = Some (str "stripe")) :
  checkout (VRef l) σ =
    (Normal (),
     with_console (console σ ++ [[default VUndefined (props !! js "card");
                                  default VUndefined (props !! js "cvc")]]) σ).
Proof.
  unfold checkout.
  rewrite (bind_normal _ _ _ _ _ (get_field _ _ _ _ _ (js "type") Hpayload eq_refl)), Htype.
  simpl default. change (strict_equals (str "stripe") (str "stripe")) with true. cbv iota.
  erewrite (bind_normal (_ ≫= _)).
  2:{ rewrite (bind_normal _ _ _ _ _ (get_field _ _ _ _ _ (js "card") Hpayload eq_refl)).
      rewrite (bind_normal _ _ _ _ _ (get_field _ _ _ _ _ (js "cvc") Hpayload eq_refl)).
      reflexivity. }
  erewrite (bind_normal (get _ _)).
  2:{ apply (get_field _ _ k props fr); [exact Hpayload|reflexivity]. }
  rewrite Htype. reflexivity.
Qed.

(** X15: for a payload of type ['paypal'], [checkout] writes one line to
    the console, the email, and changes nothing else. *)
Theorem checkout_paypal σ l k props fr
    (Hpayload : heap σ !! l = Some (Cell (Fields k props) fr))
    (Htype : props !! js "type" = Some (str "paypal")) :
  checkout (VRef l) σ =
    (Normal (), with_console (console σ ++ [[default VUndefined (props !! js "email")]]) σ).
Proof.
  unfold checkout.
  rewrite (bind_normal _ _ _ _ _ (get_field _ _ _ _ _ (js "type") Hpayload eq_refl)), Htype.
  simpl default. change (strict_equals (str "paypal") (str "stripe")) with false. cbv iota.
  rewrite (bind_normal (mret ()) _ σ () σ eq_refl).
  rewrite (bind_normal _ _ _ _ _ (get_field _ _ _ _ _ (js "type") Hpayload eq_refl)), Htype.
  change (strict_equals _ (str "paypal")) with true. cbv iota.
  rewrite (bind_normal _ _ _ _ _ (get_field _ _ _ _ _ (js "email") Hpayload eq_refl)).
  reflexivity.
Qed.

(** X16: for a payload whose type is neither ['stripe'] nor ['paypal'] (or
    is missing), [checkout] writes nothing and changes nothing. *)
Theorem checkout_other σ l k props fr
    (Hpayload : heap σ !! l = Some (Cell (Fields k props) fr))
    (Hstripe : strict_equals (default VUndefined (props !! js "type")) (str "stripe") = false)
    (Hpaypal : strict_equals (default VUndefined (props !! js "type")) (str "paypal") = false) :
  checkout (VRef l) σ = (Normal (), σ).
Proof.
  unfold checkout.
  rewrite (bind_normal _ _ _ _ _ (get_field _ _ _ _ _ (js "type") Hpayload eq_refl)), Hstripe.
  rewrite (bind_normal (mret ()) _ σ () σ eq_refl).
  rewrite (bind_normal _ _ _ _ _ (get_field _ _ _ _ _ (js "type") Hpayload eq_refl)), Hpaypal.
  reflexivity.
Qed.

(** X17: [groupFactory(arg)] returns a new BandCreator whose name is
    [arg.name] ([undefined] when [arg] has none) and leaves [arg], every other
    object and the variables as they were. *)
Theorem groupFactory_builds σ l k props fr
    (Harg : heap σ !! l = Some (Cell (Fields k props) fr)) :
  ∃ l' σ',
    groupFactory (VRef l) σ = (Normal (VRef l'), σ') ∧
    heap σ !! l' = None ∧
    heap σ' !! l' =
      Some (Cell (Fields Class.BandCreator
                    {[js "name" := default VUndefined (props !! js "name")]}) false) ∧
    (∀ l0, l0 ≠ l' → heap σ' !! l0 = heap σ !! l0) ∧
    bindings σ' = bindings σ.
Proof.
  eexists _, _. split.
  { unfold groupFactory.
    rewrite (bind_normal _ _ _ _ _ (get_field _ _ _ _ _ (js "name") Harg eq_refl)).
    apply construct_one. reflexivity. }
  split; [apply fresh_unused|]. split; [apply lookup_insert_eq|].
  split; [|reflexivity]. intros l0 Hne. apply lookup_insert_ne. congruence.
Qed.


Lemma reverse_string_run (u : jsstring) σ :
  reverse (VString u) σ =
    (Normal (VString (rev u)),
     with_heap (<[fresh (dom (heap σ)) :=
        Cell (Elements (map (λ c, Some (VString [c])) (rev u))) false]> (heap σ)) σ).
Proof.
  unfold reverse.
  rewrite (bind_normal (typeof (VString u)) _ σ (js "string") σ eq_refl).
  change (strict_equals (VString (js "string")) (str "string")) with true. cbv iota.
  unfold String_split_empty. rewrite (bind_normal _ _ _ _ _ (alloc_run _ _)).
  erewrite (bind_normal (Array_reverse _));
    [|apply Array_reverse_run; rewrite with_heap_heap; apply lookup_insert_eq].
  rewrite with_heap_twice, !with_heap_heap, insert_insert_eq, <- map_rev.
  eapply Array_join_empty_run; [apply lookup_insert_eq|apply join_code_units].
Qed.

Lemma reverse_array_run σ l xs fr :
  heap σ !! l = Some (Cell (Elements xs) fr) →
  reverse (VRef l) σ =
    (Normal (VRef (fresh (dom (heap σ)))),
     with_heap (<[fresh (dom (heap σ)) := Cell (Elements (rev xs)) false]> (heap σ)) σ).
Proof.
  intros Harr. unfold reverse.
  rewrite (bind_normal _ _ _ _ _ (typeof_array _ _ _ _ Harr)).
  change (strict_equals (VString (js "object")) (str "string")) with false. cbv iota.
  rewrite (bind_normal _ _ _ _ _ (Array_slice_run _ _ _ _ Harr)).
  erewrite Array_reverse_run by (rewrite with_heap_heap; apply lookup_insert_eq).
  rewrite with_heap_twice, !with_heap_heap, insert_insert_eq. reflexivity.
Qed.

(** X18: reversing a string twice gives the string back. *)
Theorem reverse_string_involutive (s : jsstring) σ :
  ((r ← reverse (VString s); reverse r) σ).1 = Normal (VString s).
Proof.
  rewrite (bind_normal _ _ _ _ _ (reverse_string_run _ _)).
  rewrite reverse_string_run, rev_involutive. reflexivity.
Qed.

(** X19: reversing an array twice gives a third array, distinct from the
    input and from the intermediate one, with the elements of the input in the
    input's order; the input is as it was. *)
Theorem reverse_array_involutive σ l xs fr
    (Harr : heap σ !! l = Some (Cell (Elements xs) fr)) :
  ∃ l1 l2 σ',
    (r ← reverse (VRef l); reverse r) σ = (Normal (VRef l2), σ') ∧
    l2 ≠ l ∧ l2 ≠ l1 ∧
    heap σ' !! l2 = Some (Cell (Elements xs) false) ∧
    heap σ' !! l1 = Some (Cell (Elements (rev xs)) false) ∧
    heap σ' !! l = Some (Cell (Elements xs) fr).
Proof.
  set (l1 := fresh (dom (heap σ))).
  set (σ1 := with_heap (<[l1 := Cell (Elements (rev xs)) false]> (heap σ)) σ).
  set (l2 := fresh (dom (heap σ1))).
  assert (H1 : heap σ1 !! l1 = Some (Cell (Elements (rev xs)) false))
    by apply lookup_insert_eq.
  assert (Hl1 : l1 ≠ l).
  { intros E. pose proof (fresh_unused σ) as Hf. fold l1 in Hf. rewrite E, Harr in Hf.
    discriminate. }
  assert (Hl : heap σ1 !! l = Some (Cell (Elements xs) fr)).
  { unfold σ1. rewrite with_heap_heap, lookup_insert_ne by exact Hl1. exact Harr. }
  assert (H21 : l2 ≠ l1).
  { intros E. pose proof (fresh_unused σ1) as Hf. fold l2 in Hf. rewrite E, H1 in Hf.
    discriminate. }
  assert (H2l : l2 ≠ l).
  { intros E. pose proof (fresh_unused σ1) as Hf. fold l2 in Hf. rewrite E, Hl in Hf.
    discriminate. }
  exists l1, l2. eexists. split.
  { rewrite (bind_normal _ _ _ _ _ (reverse_array_run _ _ _ _ Harr)).
    fold l1. fold σ1. rewrite (reverse_array_run _ _ _ _ H1), rev_involutive.
    fold l2. reflexivity. }
  split; [exact H2l|]. split; [exact H21|].
  rewrite with_heap_heap. split; [apply lookup_insert_eq|].
  split; rewrite lookup_insert_ne by done; assumption.
Qed.

(** X20: [reverse(undefined)] and [reverse(null)] throw a TypeError and
    change nothing. *)
Theorem reverse_of_nothing σ :
  reverse VUndefined σ = (Throws TypeError, σ) ∧
  reverse VNull σ = (Throws TypeError, σ).
Proof. split; reflexivity. Qed.

(** X21: when [selected] is declared with [let], [updateSize(size)] makes
    [selected] hold [size] and touches neither the store nor another variable;
    of two calls the last one decides. *)
Theorem updateSize_assigns σ v0 size other
    (Hselected : bindings σ !! js "selected" = Some (Let, v0)) :
  ∃ σ',
    updateSize size σ = (Normal VUndefined, σ') ∧
    read "selected" σ' = (Normal size, σ') ∧
    heap σ' = heap σ ∧
    (∀ x, x ≠ js "selected" → bindings σ' !! x = bindings σ !! x) ∧
    (updateSize other;; updateSize size) σ = (Normal VUndefined, σ').
Proof.
  assert (Hrun : ∀ σ0 w s, bindings σ0 !! js "selected" = Some (Let, w) →
            updateSize s σ0 =
            (Normal VUndefined,
             with_bindings (<[js "selected" := (Let, s)]> (bindings σ0)) σ0)).
  { intros σ0 w s H. unfold updateSize, assign. rewrite bind_run, H. reflexivity. }
  eexists. split; [apply (Hrun _ _ _ Hselected)|].
  split; [|split; [reflexivity|split]].
  - unfold read. simpl. rewrite lookup_insert_eq. reflexivity.
  - intros x Hx. simpl. apply lookup_insert_ne. congruence.
  - rewrite (bind_normal _ _ _ _ _ (Hrun _ _ other Hselected)).
    erewrite Hrun by (simpl; apply lookup_insert_eq).
    unfold with_bindings. simpl. rewrite insert_insert_eq. reflexivity.
Qed.

End Further.

(** X22: the constants that the file computes hold the values its
    expressions denote, and [newPerson] is bound to the very object of
    [person]. *)
Theorem toplevel_results :
  bindings (final program empty_state) !! js "personName" = Some (Const, str "Tyler") ∧
  bindings (final program empty_state) !! js "age" = Some (Const, str "Tyler is 30") ∧
  bindings (final program empty_state) !! js "songDurationFromString"
    = Some (Const, str "05:31") ∧
  bindings (final program empty_state) !! js "songDurationFromMS" = Some (Const, str "5:30") ∧
  bindings (final program empty_state) !! js "albumName"
    = Some (Const, str "Wonderful Wonderful") ∧
  bindings (final program empty_state) !! js "playlistName"
    = Some (Const, str "Best Albums") ∧
  bindings (final program empty_state) !! js "cakes" = Some (Const, VUndefined) ∧
  bindings (final program empty_state) !! js "newPerson"
    = bindings (final program empty_state) !! js "person".
Proof. repeat split; evaluate. Qed.

(** ** The further properties at concrete values *)

Lemma getProperty_of_updatePerson_witness :
  ((r ← updatePerson (VRef 1%positive) (VRef 2%positive); getProperty r (js "name"))
     person_state).1 = Normal (str "Joe").
Proof.
  apply (getProperty_of_updatePerson person_state 1%positive Class.Object
           (properties [("name", str "Tyler"); ("age", num 30)]) false
           2%positive Class.Object (properties [("name", str "Joe")]) false (js "name"));
    evaluate.
Defined.

Lemma updatePerson_of_frozen_witness :
  ∃ l σ1 σ2,
    updatePerson (VRef 1%positive) (VRef 2%positive) frozen_person_state
      = (Normal (VRef l), σ1) ∧
    set (VRef l) (js "age") (num 31) σ1 = (Normal (), σ2) ∧
    get (VRef l) (js "age") σ2 = (Normal (num 31), σ2) ∧
    heap σ2 !! 1%positive =
      Some (Cell (Fields Class.Object (properties [("name", str "Tyler"); ("age", num 30)]))
              true) ∧
    set (VRef 1%positive) (js "age") (num 31) σ2 = (Throws TypeError, σ2).
Proof.
  apply (updatePerson_of_frozen frozen_person_state 1%positive Class.Object _
           2%positive Class.Object (properties [("name", str "Joe")]) false);
    [evaluate | evaluate | discriminate].
Defined.

Lemma updatePerson_without_prop_witness :
  ∃ l σ',
    updatePerson (VRef 1%positive) VUndefined person_state = (Normal (VRef l), σ') ∧
    l ≠ 1%positive ∧
    heap σ' !! l =
      Some (Cell (Fields Class.Object (properties [("name", str "Tyler"); ("age", num 30)]))
              false) ∧
    heap σ' !! 1%positive =
      Some (Cell (Fields Class.Object (properties [("name", str "Tyler"); ("age", num 30)]))
              false).
Proof.
  apply (updatePerson_without_prop person_state 1%positive Class.Object _ false VUndefined);
    [evaluate | left; reflexivity].
Defined.

Lemma freeze_is_shallow_witness :
  ∃ σ1 σ2,
    freeze (VRef 2%positive) nested_state = (Normal (VRef 2%positive), σ1) ∧
    get (VRef 2%positive) (js "0") σ1 = (Normal (VRef 1%positive), σ1) ∧
    set (VRef 1%positive) (js "next") (str "x") σ1 = (Normal (), σ2) ∧
    get (VRef 1%positive) (js "next") σ2 = (Normal (str "x"), σ2).
Proof.
  apply (freeze_is_shallow nested_state 2%positive Class.Object
           (properties [("0", VRef 1%positive)]) false (js "0") 1%positive Class.Object
           (properties [("current", str "js02js9"); ("next", str "8nlksjsk")]));
    [evaluate | evaluate | evaluate | discriminate | discriminate].
Defined.

Lemma printAge_text_witness :
  printAge (VRef 1%positive) person_state = (Normal (str "Tyler is 30"), person_state).
Proof.
  apply (printAge_text person_state 1%positive Class.Object
           (properties [("name", str "Tyler"); ("age", num 30)]) false
           (js "Tyler") (Number.of_Z 30)); evaluate.
Defined.

Lemma printAge_missing_witness :
  printAge (VRef 1%positive) album_state
    = (Normal (str "undefined is undefined"), album_state).
Proof.
  apply (printAge_missing album_state 1%positive Class.Album
           (properties [("title", str "Wonderful Wonderful"); ("duration", num 300000)])
           false); evaluate.
Defined.

Lemma getSongDuration_whole_seconds_witness :
  getSongDuration (VRef 1%positive) song_number_state
    = (Normal (VString (whole_seconds_text 330)), song_number_state).
Proof.
  apply (getSongDuration_whole_seconds song_number_state 1%positive
           (properties [("title", str "Wonderful Wonderful"); ("duration", num 330000)])
           false 330); [evaluate | evaluate | lia].
Defined.

Lemma getSongDuration_negative_seconds_witness :
  getSongDuration (VRef 1%positive) song_negative_state
    = (Normal (VString (negative_seconds_text 90)), song_negative_state).
Proof.
  apply (getSongDuration_negative_seconds song_negative_state 1%positive
           (properties [("title", str "Wonderful Wonderful"); ("duration", num (-90000))])
           false 90); [evaluate | evaluate | lia].
Defined.

Lemma getSongDuration_missing_duration_witness :
  getSongDuration (VRef 1%positive) person_state = (Normal (str "NaN:NaN"), person_state).
Proof.
  apply (getSongDuration_missing_duration person_state 1%positive Class.Object
           (properties [("name", str "Tyler"); ("age", num 30)]) false); evaluate.
Defined.

Lemma checkout_stripe_witness :
  checkout (VRef 1%positive) orders_state =
    (Normal (), with_console [[str "1000 2000 3000 4000"; str "123"]] orders_state).
Proof.
  apply (checkout_stripe orders_state 1%positive Class.Object
           (properties [("id", str "xj27s"); ("type", str "stripe");
                        ("card", str "1000 2000 3000 4000"); ("cvc", str "123")]) false);
    evaluate.
Defined.

Lemma checkout_paypal_witness :
  checkout (VRef 2%positive) orders_state =
    (Normal (), with_console [[str "abc@def.com"]] orders_state).
Proof.
  apply (checkout_paypal orders_state 2%positive Class.Object
           (properties [("id", str "xj27s"); ("type", str "paypal");
                        ("email", str "abc@def.com")]) false);
    evaluate.
Defined.

Lemma checkout_other_witness :
  checkout (VRef 1%positive) person_state = (Normal (), person_state).
Proof.
  apply (checkout_other person_state 1%positive Class.Object
           (properties [("name", str "Tyler"); ("age", num 30)]) false);
    evaluate.
Defined.

Lemma groupFactory_builds_witness :
  ∃ l' σ',
    groupFactory (VRef 1%positive) person_state = (Normal (VRef l'), σ') ∧
    heap person_state !! l' = None ∧
    heap σ' !! l' =
      Some (Cell (Fields Class.BandCreator {[js "name" := str "Tyler"]}) false) ∧
    (∀ l0, l0 ≠ l' → heap σ' !! l0 = heap person_state !! l0) ∧
    bindings σ' = bindings person_state.
Proof.
  apply (groupFactory_builds person_state 1%positive Class.Object
           (properties [("name", str "Tyler"); ("age", num 30)]) false); evaluate.
Defined.

Lemma reverse_array_involutive_witness :
  ∃ l1 l2 σ',
    (r ← reverse (VRef 1%positive); reverse r) array_state = (Normal (VRef l2), σ') ∧
    l2 ≠ 1%positive ∧ l2 ≠ l1 ∧
    heap σ' !! l2 =
      Some (Cell (Elements [Some (str "frosting"); Some (str "vanilla"); Some (str "smarties")])
              false) ∧
    heap σ' !! l1 =
      Some (Cell (Elements [Some (str "smarties"); Some (str "vanilla"); Some (str "frosting")])
              false) ∧
    heap σ' !! 1%positive =
      Some (Cell (Elements [Some (str "frosting"); Some (str "vanilla"); Some (str "smarties")])
              false).
Proof.
  apply (reverse_array_involutive array_state 1%positive
           [Some (str "frosting"); Some (str "vanilla"); Some (str "smarties")] false).
  evaluate.
Defined.

Lemma updateSize_assigns_witness :
  ∃ σ',
    updateSize Size.Large selected_state = (Normal VUndefined, σ') ∧
    read "selected" σ' = (Normal Size.Large, σ') ∧
    heap σ' = heap selected_state ∧
    (∀ x, x ≠ js "selected" → bindings σ' !! x = bindings selected_state !! x) ∧
    (updateSize Size.Medium;; updateSize Size.Large) selected_state = (Normal VUndefined, σ').
Proof.
  apply (updateSize_assigns selected_state Size.Small Size.Large Size.Medium). evaluate.
Defined.

(** ** Arguments that are not objects *)

(** X24: on a value that is not an object, [isAlbum] answers false without
    throwing, whereas [isSong] throws a TypeError; neither changes the state. *)
Theorem guards_on_primitives v σ
    (Hprimitive : ∀ l, v ≠ VRef l) :
  isAlbum v σ = (Normal false, σ) ∧
  isSong v σ = (Throws TypeError, σ).
Proof.
  destruct v; try (split; reflexivity). destruct (Hprimitive l eq_refl).
Qed.

(** X25: on [undefined] and on [null], every function of the file that reads
    a property of its argument throws a TypeError and changes nothing. *)
Theorem property_of_nothing v key σ
    (Hnothing : v = VUndefined ∨ v = VNull) :
  getProperty v key σ = (Throws TypeError, σ) ∧
  printAge v σ = (Throws TypeError, σ) ∧
  getSongDuration v σ = (Throws TypeError, σ) ∧
  getItemName v σ = (Throws TypeError, σ) ∧
  getName v σ = (Throws TypeError, σ) ∧
  getKindName v σ = (Throws TypeError, σ) ∧
  groupFactory v σ = (Throws TypeError, σ) ∧
  checkout v σ = (Throws TypeError, σ).
Proof. destruct Hnothing as [-> | ->]; repeat split; reflexivity. Qed.

Lemma guards_on_primitives_witness :
  isAlbum (str "Wonderful Wonderful") empty_state = (Normal false, empty_state) ∧
  isSong (str "Wonderful Wonderful") empty_state = (Throws TypeError, empty_state).
Proof.
  apply (guards_on_primitives (str "Wonderful Wonderful") empty_state).
  intros l. discriminate.
Defined.

Lemma property_of_nothing_witness :
  getProperty VUndefined (js "name") empty_state = (Throws TypeError, empty_state) ∧
  printAge VUndefined empty_state = (Throws TypeError, empty_state) ∧
  getSongDuration VUndefined empty_state = (Throws TypeError, empty_state) ∧
  getItemName VUndefined empty_state = (Throws TypeError, empty_state) ∧
  getName VUndefined empty_state = (Throws TypeError, empty_state) ∧
  getKindName VUndefined empty_state = (Throws TypeError, empty_state) ∧
  groupFactory VUndefined empty_state = (Throws TypeError, empty_state) ∧
  checkout VUndefined empty_state = (Throws TypeError, empty_state).
Proof.
  apply (property_of_nothing VUndefined (js "name") empty_state). left. reflexivity.
Defined.

Lemma readers_leave_state_witness :
  (getProperty (VRef 1%positive) (js "name") person_state).2 = person_state ∧
  (printAge (VRef 1%positive) person_state).2 = person_state ∧
  (getSongDuration (VRef 1%positive) person_state).2 = person_state ∧
  (getItemName (VRef 1%positive) person_state).2 = person_state ∧
  (isAlbum (VRef 1%positive) person_state).2 = person_state ∧
  (getName (VRef 1%positive) person_state).2 = person_state ∧
  (isSong (VRef 1%positive) person_state).2 = person_state ∧
  (getKindName (VRef 1%positive) person_state).2 = person_state ∧
  (List_.addItem (VRef 1%positive) VUndefined person_state).2 = person_state ∧
  (List_.getList (VRef 1%positive) person_state).2 = person_state.
Proof.
  destruct (readers_leave_state (VRef 1%positive) (js "name") VUndefined person_state)
    as (H1 & H2 & H3 & H4 & H5 & H6 & H7 & H8 & H9 & H10).
  refine (conj (H1 _) (conj (H2 _) (conj (H3 _) (conj (H4 _) (conj (H5 _) (conj (H6 _)
            (conj (H7 _) (conj (H8 _) (conj (H9 _) (H10 _))))))))));
    unfold modelled; evaluate.
Defined.
